(** * robodev/reviewer.py: the rule-based code review

    A shallow embedding of the diff parser, the four rule-based detectors and
    the verdict part of [run], followed by the properties of the engine.

    Python values are modelled as follows.
    - [str] is a sequence of Unicode code points: [list N].
    - a file dictionary of the hosting platform's "list pull request files"
      answer is a record with the three keys that the code reads;
    - a banned-pattern dictionary is a record of optional fields (the
      code reads every key with [dict.get] and a default);
    - an exception is the [Raise] result of a small error monad. *)

From Stdlib Require Import String Ascii DecimalString.
From Stdlib Require Import List ZArith NArith Lia Bool Permutation.
Import ListNotations.

Set Implicit Arguments.

(** ** Python strings *)

Module PyStr.

Definition char := N.
Definition str := list char.

(** An ASCII literal of the source, as code points. *)
Definition py (s : string) : str :=
  List.map N_of_ascii (list_ascii_of_string s).
Arguments py s%_string.

Fixpoint str_eqb (a b : str) : bool :=
  match a, b with
  | [], [] => true
  | x :: a', y :: b' => N.eqb x y && str_eqb a' b'
  | _, _ => false
  end.

(** [s.startswith(prefix)] *)
Fixpoint startswith (s prefix : str) : bool :=
  match prefix, s with
  | [], _ => true
  | p :: prefix', c :: s' => N.eqb p c && startswith s' prefix'
  | _ :: _, [] => false
  end.

(** [needle in hay] for two strings *)
Fixpoint contains (needle hay : str) : bool :=
  startswith hay needle ||
  match hay with
  | [] => false
  | _ :: hay' => contains needle hay'
  end.

(** [x in (a, b, ...)] for a tuple of strings *)
Definition in_tuple (x : str) (t : list str) : bool :=
  existsb (str_eqb x) t.

(** [sep.join(parts)] *)
Fixpoint join (sep : str) (parts : list str) : str :=
  match parts with
  | [] => []
  | [p] => p
  | p :: rest => p ++ sep ++ join sep rest
  end.

(** Truth value of a string, and of an optional string. *)
Definition truthy (s : str) : bool :=
  match s with [] => false | _ :: _ => true end.

Definition truthy_opt (o : option str) : bool :=
  match o with None => false | Some s => truthy s end.

(** The line boundaries of [str.splitlines]: LF, VT, FF, CR, FS, GS, RS,
    NEL, LINE SEPARATOR and PARAGRAPH SEPARATOR (CR LF counts once). *)
Definition is_linebreak (c : char) : bool :=
  existsb (N.eqb c) [10; 11; 12; 13; 28; 29; 30; 133; 8232; 8233]%N.

(** [s.splitlines()]: [cur] is the line being read, reversed. *)
Fixpoint splitlines_from (cur : str) (s : str) : list str :=
  match s with
  | [] => match cur with [] => [] | _ :: _ => [rev cur] end
  | c :: s' =>
      if is_linebreak c then
        rev cur ::
        match c, s' with
        | 13%N, 10%N :: s'' => splitlines_from [] s''
        | _, _ => splitlines_from [] s'
        end
      else splitlines_from (c :: cur) s'
  end.

Definition splitlines (s : str) : list str := splitlines_from [] s.

(** [s.split(sep)] for a one-character separator. *)
Fixpoint split_on (sep : char) (cur : str) (s : str) : list str :=
  match s with
  | [] => [rev cur]
  | c :: s' =>
      if N.eqb c sep then rev cur :: split_on sep [] s'
      else split_on sep (c :: cur) s'
  end.

(** [s.rfind(".")], as the suffix of [s] starting at the last dot together
    with its index, when there is a dot. *)
Fixpoint rfind_dot (i : nat) (s : str) : option (nat * str) :=
  match s with
  | [] => None
  | c :: s' =>
      match rfind_dot (S i) s' with
      | Some r => Some r
      | None => if N.eqb c 46%N then Some (i, s) else None
      end
  end.

(** [s.lower()] on the ASCII range.  Python also lowers cased letters
    outside ASCII; none of them lowers to a sequence that holds one of the
    letters t, e, s, p, c, so the two containment tests of the module
    ("test", "spec") cannot tell the difference. *)
Definition lower_char (c : char) : char :=
  if (65 <=? c)%N && (c <=? 90)%N then (c + 32)%N else c.

Definition lower (s : str) : str := List.map lower_char s.

(** [str(n)] for an integer, as the f-strings of the module print it. *)
Definition str_of_Z (z : Z) : str :=
  py (NilZero.string_of_int (Z.to_int z)).

End PyStr.
Import PyStr.

(** ** pathlib.PurePosixPath *)

Module PyPath.

(** [PurePosixPath(p).name]: the last component that is neither empty nor
    a single dot; the empty string when there is none. *)
Definition name (p : str) : str :=
  last (filter (fun c => truthy c && negb (str_eqb c (py ".")))
               (split_on 47%N [] p)) [].

(** [PurePosixPath(p).suffix]:
    [i = name.rfind('.'); name[i:] if 0 < i < len(name) - 1 else ''] *)
Definition suffix (p : str) : str :=
  let n := name p in
  match rfind_dot 0 n with
  | Some (i, tail) =>
      if Nat.ltb 0 i && Nat.ltb i (length n - 1) then tail else []
  | None => []
  end.

End PyPath.

(** ** Exceptions *)

(** The exceptions that can cross the detectors.  [re_error] is Python's
    [re.error] (the pattern does not compile).  [outside_fragment] is raised
    by the model only: the pattern uses syntax that [PyRe] below does not
    cover, and nothing is said about what Python does with it. *)
Inductive exn : Type :=
| re_error
| outside_fragment.

Inductive result (A : Type) : Type :=
| Return (a : A)
| Raise (e : exn).
Arguments Return {A} a.
Arguments Raise {A} e.

Definition bind {A B : Type} (m : result A) (k : A -> result B) : result B :=
  match m with
  | Return a => k a
  | Raise e => Raise e
  end.

Notation "x <- m ;; k" := (bind m (fun x => k))
  (at level 61, m at next level, right associativity).

(** ** The regular-expression library *)

(** [re.finditer(pattern, string)] as the module uses it: the pattern is
    compiled when the call is made, which raises for an invalid pattern;
    otherwise the matches are produced from left to right, and the module
    reads [match.group()] of each. *)
Class RegexEngine : Type :=
  { finditer : str -> str -> result (list str) }.

(** A model of [re.finditer] on a fragment of the pattern syntax: literal
    characters, a backslash before an ASCII punctuation character, the dot,
    alternation, groups without a quantifier, and the greedy quantifiers
    [*], [+] and [?] on a single character or dot.  A pattern of the
    fragment is [Parsed], or [Invalid] where Python raises [re.error]
    (nothing to repeat, a missing or an unbalanced parenthesis, a backslash
    at the end); any other pattern is [Outside].  Matching is that of the
    backtracking matcher: the alternatives are tried from left to right and
    a quantifier takes the longest run first. *)
Module PyRe.

Inductive atom : Type :=
| Lit (c : char)
| AnyChar.

Inductive regex : Type :=
| Empty
| One (a : atom)
| Star (a : atom)
| Plus (a : atom)
| Opt (a : atom)
| Seq (r1 r2 : regex)
| Alt (r1 r2 : regex).

Inductive parsed (A : Type) : Type :=
| Parsed (a : A)
| Invalid
| Outside.
Arguments Parsed {A} a.
Arguments Invalid {A}.
Arguments Outside {A}.

Definition is_char (c : char) (a : ascii) : bool := N.eqb c (N_of_ascii a).

Definition is_quantifier (c : char) : bool :=
  is_char c "*" || is_char c "+" || is_char c "?".

Definition starts_with_repeat (p : str) : bool :=
  match p with
  | c :: _ => is_quantifier c || is_char c "{"
  | [] => false
  end.

Definition is_ascii_punct (c : char) : bool :=
  ((33 <=? c) && (c <=? 47) || (58 <=? c) && (c <=? 64) ||
   (91 <=? c) && (c <=? 96) || (123 <=? c) && (c <=? 126))%N.

(** One character or escape. *)
Definition parse_atom (c : char) (t : str) : parsed (atom * str) :=
  if is_char c "\" then
    match t with
    | [] => Invalid                                (* bad escape *)
    | e :: t' => if is_ascii_punct e then Parsed (Lit e, t') else Outside
    end
  else if is_char c "." then Parsed (AnyChar, t)
  else if is_char c "[" || is_char c "]" || is_char c "{" || is_char c "}"
          || is_char c "^" || is_char c "$" then Outside
  else Parsed (Lit c, t).

(** The quantifier after an atom, when there is one. *)
Definition parse_quant (a : atom) (t : str) : parsed (regex * str) :=
  match t with
  | q :: t' =>
      if is_quantifier q then
        if starts_with_repeat t' then Outside
        else if is_char q "*" then Parsed (Star a, t')
        else if is_char q "+" then Parsed (Plus a, t')
        else Parsed (Opt a, t')
      else if is_char q "{" then Outside
      else Parsed (One a, t)
  | [] => Parsed (One a, t)
  end.

(** [parse_seq] reads items up to a bar, a closing parenthesis or the
    end; [parse_alt] reads sequences separated by bars. *)
Fixpoint parse_seq (fuel : nat) (p : str) : parsed (regex * str) :=
  match fuel with
  | O => Outside
  | S fuel' =>
      match p with
      | [] => Parsed (Empty, [])
      | c :: t =>
          if is_char c "|" || is_char c ")" then Parsed (Empty, p)
          else if is_quantifier c then Invalid     (* nothing to repeat *)
          else if is_char c "(" then
            match t with
            | [] => Invalid                        (* missing ) *)
            | c' :: _ =>
                if is_char c' "?" then Outside
                else
                  match parse_alt fuel' t with
                  | Parsed (r, rest) =>
                      match rest with
                      | [] => Invalid              (* missing ) *)
                      | _ :: rest' =>
                          if starts_with_repeat rest' then Outside
                          else
                            match parse_seq fuel' rest' with
                            | Parsed (r2, rest'') => Parsed (Seq r r2, rest'')
                            | Invalid => Invalid
                            | Outside => Outside
                            end
                      end
                  | Invalid => Invalid
                  | Outside => Outside
                  end
            end
          else
            match parse_atom c t with
            | Parsed (a, t1) =>
                match parse_quant a t1 with
                | Parsed (item, t2) =>
                    match parse_seq fuel' t2 with
                    | Parsed (r2, rest) => Parsed (Seq item r2, rest)
                    | Invalid => Invalid
                    | Outside => Outside
                    end
                | Invalid => Invalid
                | Outside => Outside
                end
            | Invalid => Invalid
            | Outside => Outside
            end
      end
  end
with parse_alt (fuel : nat) (p : str) : parsed (regex * str) :=
  match fuel with
  | O => Outside
  | S fuel' =>
      match parse_seq fuel' p with
      | Parsed (r, rest) =>
          match rest with
          | c :: rest' =>
              if is_char c "|" then
                match parse_alt fuel' rest' with
                | Parsed (r2, rest'') => Parsed (Alt r r2, rest'')
                | Invalid => Invalid
                | Outside => Outside
                end
              else Parsed (r, rest)
          | [] => Parsed (r, rest)
          end
      | Invalid => Invalid
      | Outside => Outside
      end
  end.

(** A whole pattern; what is left over can only start with a closing
    parenthesis that nothing opened. *)
Definition parse (p : str) : parsed regex :=
  match parse_alt (2 * length p + 2) p with
  | Parsed (r, []) => Parsed r
  | Parsed (_, _ :: _) => Invalid                  (* unbalanced ) *)
  | Invalid => Invalid
  | Outside => Outside
  end.

Definition atom_matches (a : atom) (c : char) : bool :=
  match a with
  | Lit x => N.eqb x c
  | AnyChar => negb (N.eqb c 10)
  end.

(** What is left of [s] after a greedy run of [a], longest run first. *)
Fixpoint star_ends (a : atom) (s : str) : list str :=
  match s with
  | c :: t => if atom_matches a c then star_ends a t ++ [s] else [s]
  | [] => [[]]
  end.

(** What is left of [s] after a match of [r] at its start, in the order
    in which the backtracking matcher tries the matches. *)
Fixpoint ends (r : regex) (s : str) : list str :=
  match r with
  | Empty => [s]
  | One a =>
      match s with
      | c :: t => if atom_matches a c then [t] else []
      | [] => []
      end
  | Star a => star_ends a s
  | Plus a =>
      match s with
      | c :: t => if atom_matches a c then star_ends a t else []
      | [] => []
      end
  | Opt a =>
      match s with
      | c :: t => if atom_matches a c then [t; s] else [s]
      | [] => [s]
      end
  | Seq r1 r2 => flat_map (ends r2) (ends r1 s)
  | Alt r1 r2 => ends r1 s ++ ends r2 s
  end.

(** The scan of [finditer]: the first match at the current position, or
    one character further.  After an empty match the next match at the same
    position must be non-empty ([must_advance]). *)
Fixpoint scan (fuel : nat) (r : regex) (s : str) (must_advance : bool)
  : list str :=
  match fuel with
  | O => []
  | S fuel' =>
      let all := ends r s in
      let allowed :=
        if must_advance
        then filter (fun rest => Nat.ltb (length rest) (length s)) all
        else all in
      match allowed with
      | rest :: _ =>
          firstn (length s - length rest) s ::
          scan fuel' r rest (Nat.eqb (length rest) (length s))
      | [] =>
          match s with
          | [] => []
          | _ :: t => scan fuel' r t false
          end
      end
  end.

Definition finditer (pattern text : str) : result (list str) :=
  match parse pattern with
  | Parsed r => Return (scan (2 * length text + 2) r text false)
  | Invalid => Raise re_error
  | Outside => Raise outside_fragment
  end.

End PyRe.

#[export] Instance python_re : RegexEngine :=
  {| finditer := PyRe.finditer |}.

(** ** The module reviewer.py *)

(** [d.get(key, default)] on an optional field. *)
Definition dict_get {A : Type} (field : option A) (default : A) : A :=
  match field with
  | Some v => v
  | None => default
  end.

(** Truth value of a list. *)
Definition nonempty {A : Type} (l : list A) : bool :=
  match l with
  | [] => false
  | _ :: _ => true
  end.

(** One entry of the file list: [f["filename"]], [f["status"]] and the
    optional [f.get("changes", 0)]. *)
Record ChangedFile : Type :=
  { filename : str;
    status : str;
    changes : option Z }.

(** One entry of [banned_patterns]. *)
Record BannedPattern : Type :=
  { regex : option str;
    label : option str;
    severity : option str }.

(** The [code_review] section of the configuration, and the configuration
    as far as [run] reads it. *)
Record ReviewConfig : Type :=
  { max_changed_lines_per_file : option Z;
    max_files_per_pr : option Z;
    banned_patterns : option (list BannedPattern);
    require_tests : option bool }.

Record Config : Type :=
  { code_review : option ReviewConfig;
    ai_review_enabled : option bool }.

Definition empty_review_config : ReviewConfig :=
  {| max_changed_lines_per_file := None;
     max_files_per_pr := None;
     banned_patterns := None;
     require_tests := None |}.

(** The two icons: CROSS MARK, and WARNING SIGN with its variation
    selector. *)
Definition CROSS : str := [10060%N].
Definition WARN : str := [9888%N; 65039%N].
Definition NL : str := [10%N].

Definition size_message (name : str) (n max_changed : Z) : str :=
  py "- " ++ WARN ++ py " `" ++ name ++ py "` has **" ++ str_of_Z n
  ++ py "** changed lines (threshold: " ++ str_of_Z max_changed
  ++ py "). Consider splitting this change.".

Definition _check_file_size (files : list ChangedFile) (max_changed : Z)
  : list str :=
  flat_map
    (fun f =>
       let n := dict_get (changes f) 0%Z in
       if (n >? max_changed)%Z
       then [size_message (filename f) n max_changed]
       else [])
    files.

Definition _EXCLUDED_PATHS : list str :=
  [py "robodev/"; py ".github/"; py "AGENTS.md"].

(** [any(path.startswith(ex) for ex in _EXCLUDED_PATHS)] *)
Definition is_excluded (path : str) : bool :=
  existsb (fun ex => startswith path ex) _EXCLUDED_PATHS.

(** The two variables of the loop of [_parse_added_lines]. *)
Record parse_state : Type :=
  { current_file : option str;
    results : list (str * str) }.

Definition parse_init : parse_state :=
  {| current_file := None; results := [] |}.

(** One turn of the loop. *)
Definition parse_step (st : parse_state) (raw_line : str) : parse_state :=
  if startswith raw_line (py "+++ b/") then
    let path := skipn 6 raw_line in
    if is_excluded path
    then {| current_file := None; results := results st |}
    else {| current_file := Some path; results := results st |}
  else
    match current_file st with
    | Some file =>
        if truthy file && startswith raw_line (py "+")
           && negb (startswith raw_line (py "+++"))
        then {| current_file := current_file st;
                results := results st ++ [(file, skipn 1 raw_line)] |}
        else st
    | None => st
    end.

Definition parse_from (st : parse_state) (lines : list str) : parse_state :=
  fold_left parse_step lines st.

Definition parse_lines (lines : list str) : list (str * str) :=
  results (parse_from parse_init lines).

Definition _parse_added_lines (diff : str) : list (str * str) :=
  parse_lines (splitlines diff).

Definition banned_message (icon label matched : str) : str :=
  py "- " ++ icon ++ py " **" ++ label ++ py "** detected in diff near: `"
  ++ firstn 80 matched ++ py "`".

Definition icon_of (sev : str) : str :=
  if str_eqb sev (py "error") then CROSS else WARN.

Section Banned.

Context {engine : RegexEngine}.

(** The findings of one pattern: the inner loop over the matches. *)
Definition scan_entry (added_text : str) (entry : BannedPattern)
  : result (list str) :=
  let rx := dict_get (regex entry) [] in
  let lbl := dict_get (label entry) rx in
  let sev := dict_get (severity entry) (py "warning") in
  let icon := icon_of sev in
  ms <- finditer rx added_text ;;
  Return (List.map (banned_message icon lbl) ms).

(** The loop over the patterns; [issues] is what was found so far. *)
Fixpoint scan_patterns (added_text : str) (patterns : list BannedPattern)
  (issues : list str) : result (list str) :=
  match patterns with
  | [] => Return issues
  | entry :: rest =>
      found <- scan_entry added_text entry ;;
      scan_patterns added_text rest (issues ++ found)
  end.

Definition _check_banned_patterns (diff : str)
  (patterns : list BannedPattern) : result (list str) :=
  let added_lines := _parse_added_lines diff in
  match added_lines with
  | [] => Return []
  | _ :: _ =>
      let added_text := join NL (List.map snd added_lines) in
      scan_patterns added_text patterns []
  end.

End Banned.

Definition large_pr_message (n : nat) (max_files : Z) : str :=
  py "- " ++ WARN ++ py " This PR modifies **" ++ str_of_Z (Z.of_nat n)
  ++ py " files** (recommended max: " ++ str_of_Z max_files
  ++ py "). Large PRs are harder to review.".

Definition _check_large_pr (files : list ChangedFile) (max_files : Z)
  : list str :=
  if (Z.of_nat (length files) >? max_files)%Z
  then [large_pr_message (length files) max_files]
  else [].

Definition coverage_message : str :=
  py "- " ++ WARN ++ py " Source files were changed but **no test files** were "
  ++ py "added or modified. Please add tests for new functionality.".

(** [f["status"] in ("added", "modified")] *)
Definition is_changed (f : ChangedFile) : bool :=
  in_tuple (status f) [py "added"; py "modified"].

(** ["test" in name.lower() or "spec" in name.lower()] *)
Definition is_test_name (name : str) : bool :=
  contains (py "test") (lower name) || contains (py "spec") (lower name).

(** [PurePosixPath(name).suffix in (".py", ".js", ".ts", ".jsx", ".tsx")] *)
Definition has_source_suffix (name : str) : bool :=
  in_tuple (PyPath.suffix name)
           [py ".py"; py ".js"; py ".ts"; py ".jsx"; py ".tsx"].

(** One turn of the loop of [_check_test_coverage] on the pair
    [(src_changed, test_found)]. *)
Definition coverage_step (flags : bool * bool) (f : ChangedFile)
  : bool * bool :=
  let '(src_changed, test_found) := flags in
  let name := filename f in
  if is_excluded name then flags
  else if is_changed f then
    if is_test_name name then (src_changed, true)
    else if has_source_suffix name then (true, test_found)
    else flags
  else flags.

Definition coverage_scan (files : list ChangedFile) : bool * bool :=
  fold_left coverage_step files (false, false).

Definition _check_test_coverage (files : list ChangedFile)
  (require_tests : bool) : list str :=
  if negb require_tests then []
  else
    let '(src_changed, test_found) := coverage_scan files in
    if src_changed && negb test_found then [coverage_message] else [].

(** *** [run] *)

Inductive Event : Type :=
| REQUEST_CHANGES
| COMMENT.

(** What [run] hands to [create_review], and what it returns. *)
Record Review : Type :=
  { event : Event;
    body : str;
    exit_code : Z }.

Definition ROBOT : str := [129302%N].
Definition CHECK_MARK : str := [9989%N].
Definition NO_ENTRY : str := [128683%N].
Definition INFO : str := [8505%N; 65039%N].
Definition DASH : str := [8212%N].

(** [any("<cross mark>" in i for i in issues)] *)
Definition has_errors (issues : list str) : bool :=
  existsb (contains CROSS) issues.

(** The second half of [run]: the review body, the verdict and the exit
    code, from the findings and the optional AI summary. *)
Definition build_review (issues : list str) (ai_summary : option str)
  : Review :=
  let body_lines := [py "## " ++ ROBOT ++ py " RoboDev Code Review" ++ NL] in
  let body_lines :=
    if nonempty issues
    then body_lines ++ [py "### Rule-Based Findings" ++ NL] ++ issues ++ [[]]
    else body_lines in
  let body_lines :=
    if truthy_opt ai_summary
    then body_lines ++ [py "### AI-Powered Review" ++ NL]
         ++ [dict_get ai_summary []] ++ [[]]
    else body_lines in
  let body_lines :=
    if negb (nonempty issues) && negb (truthy_opt ai_summary)
    then body_lines ++ [CHECK_MARK ++ py " No issues detected " ++ DASH
                        ++ py " looking good!" ++ NL]
    else body_lines in
  if has_errors issues then
    {| event := REQUEST_CHANGES;
       body := join NL (body_lines ++
                 [NL ++ py "> " ++ NO_ENTRY ++ py " **Requesting changes** "
                  ++ DASH ++ py " please address the errors above."]);
       exit_code := 1 |}
  else
    {| event := COMMENT;
       body := join NL (body_lines ++
                 [NL ++ py "> " ++ INFO ++ py " Review complete. A human "
                  ++ py "reviewer should still approve this PR."]);
       exit_code := 0 |}.

Section Run.

Context {engine : RegexEngine}.

(** The first half of [run]: the four rule-based checks, in order. *)
Definition collect_issues (review_cfg : ReviewConfig)
  (files : list ChangedFile) (diff : str) : result (list str) :=
  let max_changed := dict_get (max_changed_lines_per_file review_cfg) 500%Z in
  let issues := _check_file_size files max_changed in
  let max_files := dict_get (max_files_per_pr review_cfg) 20%Z in
  let issues := issues ++ _check_large_pr files max_files in
  let banned := dict_get (banned_patterns review_cfg) [] in
  found <- _check_banned_patterns diff banned ;;
  let issues := issues ++ found in
  let require := dict_get (require_tests review_cfg) true in
  Return (issues ++ _check_test_coverage files require).

(** [run], with what the collaborators answer as arguments: the
    configuration, the file list, the diff, and what [_ai_review] returns
    when it is called. *)
Definition run (cfg : Config) (files : list ChangedFile) (diff : str)
  (ai_reply : option str) : result Review :=
  let review_cfg := dict_get (code_review cfg) empty_review_config in
  issues <- collect_issues review_cfg files diff ;;
  let ai_summary :=
    if dict_get (ai_review_enabled cfg) false then ai_reply else None in
  Return (build_review issues ai_summary).

End Run.

(** ** Notions of the specification *)

(** The specification gives every Finding a severity.  The module's
    findings are Markdown bullets, and a detector states the severity by the
    icon that it writes right after the bullet mark. *)
Inductive Severity : Type :=
| warning
| error.

Definition finding_severity (issue : str) : option Severity :=
  if startswith issue (py "- " ++ CROSS ++ py " ") then Some error
  else if startswith issue (py "- " ++ WARN ++ py " ") then Some warning
  else None.

(** A file that the test-coverage detector looks at: not excluded, and
    added or modified. *)
Definition considered (f : ChangedFile) : bool :=
  negb (is_excluded (filename f)) && is_changed f.

(** The test-coverage detector as the invariant of the specification words
    it, for comparison: the same pass over the full file list, with no
    exclusion test of its own. *)
Definition spec_coverage_step (flags : bool * bool) (f : ChangedFile)
  : bool * bool :=
  let '(src_changed, test_found) := flags in
  let name := filename f in
  if is_changed f then
    if is_test_name name then (src_changed, true)
    else if has_source_suffix name then (true, test_found)
    else flags
  else flags.

Definition spec_check_test_coverage (files : list ChangedFile)
  (require_tests : bool) : list str :=
  if negb require_tests then []
  else
    let '(src_changed, test_found) :=
      fold_left spec_coverage_step files (false, false) in
    if src_changed && negb test_found then [coverage_message] else [].

(** The scanning buffer of the banned-pattern detector: the texts of the
    parsed added lines, joined with newlines. *)
Definition scan_buffer (diff : str) : str :=
  join NL (List.map snd (_parse_added_lines diff)).

(** The finding that the banned-pattern detector words for one match of
    one entry. *)
Definition finding_of (entry : BannedPattern) (matched : str) : str :=
  banned_message
    (icon_of (dict_get (severity entry) (py "warning")))
    (dict_get (label entry) (dict_get (regex entry) []))
    matched.

(** The regex of an entry compiles, and matches [ms] in [text]. *)
Definition matches_in {engine : RegexEngine} (text : str)
  (entry : BannedPattern) (ms : list str) : Prop :=
  finditer (dict_get (regex entry) []) text = Return ms.

Definition compiles {engine : RegexEngine} (text : str)
  (entry : BannedPattern) : Prop :=
  exists ms, matches_in text entry ms.

(** The findings for a list of patterns, given the matches of each: those
    of the first pattern, then those of the second, and so on. *)
Definition findings_for (patterns : list BannedPattern)
  (matches : list (list str)) : list str :=
  flat_map (fun em => List.map (finding_of (fst em)) (snd em))
           (combine patterns matches).

(** The severity that an entry configures: error for ["error"], warning for
    anything else and when the key is missing. *)
Definition configured_severity (entry : BannedPattern) : Severity :=
  if str_eqb (dict_get (severity entry) (py "warning")) (py "error")
  then error else warning.

(** The two classifications of the test-coverage detector, each on its own. *)
Definition counts_as_test (f : ChangedFile) : bool :=
  considered f && is_test_name (filename f).

Definition counts_as_source (f : ChangedFile) : bool :=
  considered f && has_source_suffix (filename f).

(** ** More of reviewer.py *)

(** A file header of the diff, [+++ b/<path>]. *)
Definition header_of (path : str) : str := py "+++ b/" ++ path.

Definition is_header (line : str) : bool := startswith line (py "+++ b/").

(** The test of the parser on a line that is no header:
    [raw_line.startswith("+") and not raw_line.startswith("+++")]. *)
Definition is_added_line (line : str) : bool :=
  startswith line (py "+") && negb (startswith line (py "+++")).

(** Where an entry comes from, in the lines read so far: its path from a
    header line, its text from a later line, with no header in between. *)
Definition attributed (lines : list str) (e : str * str) : Prop :=
  exists pre mid post,
    lines = pre ++ header_of (fst e) :: mid ++ (py "+" ++ snd e) :: post /\
    Forall (fun l => is_header l = false) mid.

Definition cursor_attributed (lines : list str) (st : parse_state) : Prop :=
  match current_file st with
  | Some file =>
      exists pre mid,
        lines = pre ++ header_of file :: mid /\
        Forall (fun l => is_header l = false) mid
  | None => True
  end.

(** The string holds none of the line boundaries of [str.splitlines]. *)
Definition no_linebreak (s : str) : Prop :=
  Forall (fun c => is_linebreak c = false) s.

(** Where a finding of the banned-pattern detector comes from: a match of
    a configured pattern in [text]. *)
Definition finding_origin {engine : RegexEngine} (text : str)
  (patterns : list BannedPattern) (issue : str) : Prop :=
  exists entry ms matched,
    In entry patterns /\ matches_in text entry ms /\ In matched ms /\
    issue = finding_of entry matched.

(** The string holds no cross mark. *)
Definition cross_free (s : str) : Prop := ~ In 10060%N s.

(** [s[:n]] for an integer [n]: a negative [n] counts from the end. *)
Definition slice_to (s : str) (n : Z) : str :=
  let len := Z.of_nat (length s) in
  let stop := if (n <? 0)%Z then Z.max 0 (len + n) else Z.min n len in
  firstn (Z.to_nat stop) s.

(** The environment variables that [_ai_review] reads. *)
Record ReviewEnv : Type :=
  { OPENAI_API_KEY : option str;
    PR_TITLE : option str;
    PR_BODY : option str }.

(** The [ai_review] section of the configuration,
    [config.get("ai_review", {})], as [_ai_review] reads it. *)
Record AiConfig : Type :=
  { model : option str;
    max_diff_chars : option Z;
    system_prompt : option str }.

(** The arguments of [client.chat.completions.create], with the key that
    the client was made with. *)
Record ChatRequest : Type :=
  { req_api_key : str;
    req_model : str;
    req_system : str;
    req_user : str;
    req_temperature : Decimal.decimal;
    req_max_tokens : Z }.

(** What a call of the OpenAI client gives: an answer, or an exception,
    which [_ai_review] does not catch. *)
Inductive api (A : Type) : Type :=
| Returns (a : A)
| Fails.
Arguments Returns {A} a.
Arguments Fails {A}.

Definition DIFF_TRUNCATED : str :=
  NL ++ NL ++ py "... (diff truncated for review) ...".

Definition DEFAULT_SYSTEM_PROMPT : str :=
  py "You are RoboDev, a senior software engineer reviewing a pull request. "
  ++ py "Be concise and constructive. Focus on bugs, security issues, performance, "
  ++ py "readability, and adherence to best practices. "
  ++ py "Format your response as Markdown with sections: "
  ++ py "## Summary, ## Issues Found, ## Suggestions, ## Verdict "
  ++ py "(APPROVE / REQUEST_CHANGES / COMMENT).".

(** Lines 150 to 152 of [_ai_review]: the part of the diff that is sent. *)
Definition truncate_diff (diff : str) (max_chars : Z) : str :=
  let truncated := slice_to diff max_chars in
  if (Z.of_nat (length diff) >? max_chars)%Z
  then truncated ++ DIFF_TRUNCATED
  else truncated.

(** The user message of the request. *)
Definition user_content (env : ReviewEnv) (truncated : str) : str :=
  py "PR Title: " ++ dict_get (PR_TITLE env) [] ++ NL
  ++ py "PR Description: " ++ dict_get (PR_BODY env) [] ++ NL ++ NL
  ++ py "```diff" ++ NL ++ truncated ++ NL ++ py "```".

(** [_ai_review(diff, config)].  [openai] is the client of the [openai]
    package, [None] when the package cannot be imported; the answer of the
    client is [response.choices[0].message.content]. *)
Definition _ai_review (env : ReviewEnv)
  (openai : option (ChatRequest -> api (option str)))
  (diff : str) (ai_cfg : AiConfig) : api (option str) :=
  let api_key := dict_get (OPENAI_API_KEY env) [] in
  if negb (truthy api_key) then Returns None
  else
    match openai with
    | None => Returns None
    | Some create =>
        let mdl := dict_get (model ai_cfg) (py "gpt-4o") in
        let max_chars := dict_get (max_diff_chars ai_cfg) 60000%Z in
        let truncated := truncate_diff diff max_chars in
        let prompt := dict_get (system_prompt ai_cfg) DEFAULT_SYSTEM_PROMPT in
        create {| req_api_key := api_key;
                  req_model := mdl;
                  req_system := prompt;
                  req_user := user_content env truncated;
                  req_temperature :=
                    Decimal.Decimal (Decimal.Pos (Decimal.D0 Decimal.Nil))
                                    (Decimal.D2 Decimal.Nil);
                  req_max_tokens := 2000 |}
    end.

(** ** github_client.py: [post_pr_comment] *)

Module GithubClient.

(** A comment of the pull request, as the platform lists it:
    [comment['id']] and [comment.get("body")]. *)
Record Comment : Type :=
  { id : Z;
    body : option str }.

(** The request that [post_pr_comment] ends with. *)
Inductive Action : Type :=
| Patch (comment_id : Z) (new_body : str)
| Post (new_body : str).

Definition marker : str := py "<!-- robodev-summary -->".

Definition body_with_marker (text : str) : str := marker ++ NL ++ text.

(** The loop over the existing comments: the first one that holds the
    marker is updated; when there is none a new comment is made. *)
Fixpoint upsert (comments : list Comment) (new_body : str) : Action :=
  match comments with
  | [] => Post new_body
  | comment :: rest =>
      if contains marker (dict_get (body comment) [])
      then Patch (id comment) new_body
      else upsert rest new_body
  end.

(** [post_pr_comment(body)], given the comments that the platform lists;
    the requests themselves, and their failures, are the platform's. *)
Definition post_pr_comment (comments : list Comment) (text : str) : Action :=
  upsert comments (body_with_marker text).

End GithubClient.

(** ** config.py: [jira_base_url] *)

(** [s.lstrip(chars)] and [s.rstrip(chars)]: the characters of [chars] are
    taken off one end. *)
Fixpoint lstrip (chars : str) (s : str) : str :=
  match s with
  | [] => []
  | c :: rest => if existsb (N.eqb c) chars then lstrip chars rest else s
  end.

Definition rstrip (chars : str) (s : str) : str :=
  rev (lstrip chars (rev s)).

(** [os.environ.get("JIRA_BASE_URL", "").rstrip("/")] *)
Definition jira_base_url (JIRA_BASE_URL : option str) : str :=
  rstrip (py "/") (dict_get JIRA_BASE_URL []).

(** ** summary.py *)

Module Summary.

Definition SKIP : str := [9197%N; 65039%N].
Definition QUESTION : str := [10067%N].
Definition MEMO : str := [128221%N].

(** The dictionary [_STATUS_ICONS], in the order of the source. *)
Definition _STATUS_ICONS : list (str * str) :=
  [ (py "success", CHECK_MARK);
    (py "failure", CROSS);
    (py "cancelled", SKIP);
    (py "skipped", SKIP) ].

Fixpoint lookup (key : str) (d : list (str * str)) : option str :=
  match d with
  | [] => None
  | (k, v) :: rest => if str_eqb key k then Some v else lookup key rest
  end.

Definition _icon (result : str) : str :=
  dict_get (lookup result _STATUS_ICONS) QUESTION.

(** The results of the three jobs, from the environment. *)
Record Env : Type :=
  { HYGIENE_RESULT : option str;
    JIRA_RESULT : option str;
    REVIEW_RESULT : option str }.

Definition row (gate result : str) : str :=
  py "| " ++ gate ++ py " | " ++ _icon result ++ py " " ++ result ++ py " |".

(** [run]: the text handed to [post_pr_comment], and the exit code. *)
Definition run (env : Env) : str * Z :=
  let hygiene := dict_get (HYGIENE_RESULT env) (py "unknown") in
  let jira := dict_get (JIRA_RESULT env) (py "unknown") in
  let review := dict_get (REVIEW_RESULT env) (py "unknown") in
  let all_passed :=
    forallb (fun r => str_eqb r (py "success")) [hygiene; jira; review] in
  let lines :=
    [ py "## " ++ MEMO ++ py " RoboDev Review Summary" ++ NL;
      py "| Gate | Status |";
      py "|------|--------|";
      row (py "PR Hygiene") hygiene;
      row (py "Jira Validation") jira;
      row (py "Code Review") review;
      [] ] in
  let lines :=
    if all_passed
    then lines ++ [py "### " ++ CHECK_MARK ++ py " All gates passed " ++ DASH
                   ++ py " ready for human review!"]
    else lines ++ [py "### " ++ WARN ++ py " One or more gates did not pass."
                   ++ NL ++ py "Please review the individual check results "
                   ++ py "above and address any issues."] in
  (join NL lines, if all_passed then 0%Z else 1%Z).

End Summary.

(** * Properties *)

(** ** Strings *)

Lemma startswith_app (p s : str) : startswith (p ++ s) p = true.
Proof.
  induction p as [|c p IH]; simpl.
  - destruct s; reflexivity.
  - now rewrite N.eqb_refl, IH.
Qed.

Lemma startswith_nil (s : str) : startswith s [] = true.
Proof. destruct s; reflexivity. Qed.

Lemma startswith_trans (s p q : str) :
  startswith s p = true -> startswith p q = true -> startswith s q = true.
Proof.
  revert s p; induction q as [|c q IH]; intros s p Hsp Hpq.
  - apply startswith_nil.
  - destruct p as [|d p]; [discriminate|].
    destruct s as [|e s]; [discriminate|].
    simpl in *.
    apply andb_true_iff in Hsp as [Hde Hsp].
    apply andb_true_iff in Hpq as [Hcd Hpq].
    apply N.eqb_eq in Hde, Hcd; subst.
    rewrite N.eqb_refl; simpl; eauto.
Qed.

Lemma contains_prefix (needle hay : str) :
  startswith hay needle = true -> contains needle hay = true.
Proof. intros H; destruct hay; simpl in *; now rewrite H. Qed.

Lemma contains_app_l (needle pre hay : str) :
  contains needle hay = true -> contains needle (pre ++ hay) = true.
Proof.
  intros H; induction pre as [|c pre IH]; simpl; [exact H|].
  rewrite IH; apply orb_true_r.
Qed.

(** ** The diff parser *)

Lemma parse_from_app (st : parse_state) (l1 l2 : list str) :
  parse_from st (l1 ++ l2) = parse_from (parse_from st l1) l2.
Proof. apply fold_left_app. Qed.

Lemma parse_from_cons (st : parse_state) (l : str) (ls : list str) :
  parse_from st (l :: ls) = parse_from (parse_step st l) ls.
Proof. reflexivity. Qed.

(** A header line sets or clears the cursor and leaves the results. *)
Lemma parse_step_header (st : parse_state) (path : str) :
  parse_step st (py "+++ b/" ++ path) =
  {| current_file := if is_excluded path then None else Some path;
     results := results st |}.
Proof.
  unfold parse_step.
  replace (startswith (py "+++ b/" ++ path) (py "+++ b/")) with true
    by (symmetry; apply startswith_app).
  replace (skipn 6 (py "+++ b/" ++ path)) with path by reflexivity.
  destruct (is_excluded path); reflexivity.
Qed.

(** With no usable cursor, a line that is not a header changes nothing. *)
Lemma parse_step_idle (st : parse_state) (line : str) :
  truthy_opt (current_file st) = false ->
  startswith line (py "+++ b/") = false ->
  parse_step st line = st.
Proof.
  intros Hcur Hline; unfold parse_step; rewrite Hline.
  destruct (current_file st) as [file|]; [|reflexivity].
  simpl in Hcur; now rewrite Hcur.
Qed.

Lemma parse_from_idle (st : parse_state) (lines : list str) :
  truthy_opt (current_file st) = false ->
  Forall (fun l => startswith l (py "+++ b/") = false) lines ->
  parse_from st lines = st.
Proof.
  intros Hcur Hall; induction Hall as [|l ls Hl _ IH]; [reflexivity|].
  now rewrite parse_from_cons, parse_step_idle.
Qed.

(** The empty string as cursor and the unset cursor cannot be told apart. *)
Lemma parse_from_falsy_cursor (lines : list str) (found : list (str * str)) :
  parse_from {| current_file := Some []; results := found |} lines =
  parse_from {| current_file := None; results := found |} lines
  \/ lines = [] \/
  Forall (fun l => startswith l (py "+++ b/") = false) lines.
Proof.
  induction lines as [|l ls IH]; [now right; left|].
  rewrite !parse_from_cons.
  destruct (startswith l (py "+++ b/")) eqn:Hl.
  - left; unfold parse_step; rewrite Hl; simpl.
    destruct (is_excluded (skipn 6 l)); reflexivity.
  - rewrite !parse_step_idle by (assumption || reflexivity).
    destruct IH as [IH | [-> | IH]].
    + now left.
    + right; right; repeat constructor; assumption.
    + right; right; constructor; assumption.
Qed.

Lemma results_falsy_cursor (lines : list str) (found : list (str * str)) :
  results (parse_from {| current_file := Some []; results := found |} lines) =
  results (parse_from {| current_file := None; results := found |} lines).
Proof.
  destruct (parse_from_falsy_cursor lines found) as [H | [-> | H]].
  - now rewrite H.
  - reflexivity.
  - now rewrite !parse_from_idle by (assumption || reflexivity).
Qed.

Lemma results_parse_app (pre rest : list str) :
  parse_from parse_init (pre ++ rest) =
  parse_from {| current_file := current_file (parse_from parse_init pre);
                results := parse_lines pre |} rest.
Proof.
  rewrite parse_from_app; unfold parse_lines.
  now destruct (parse_from parse_init pre).
Qed.

(** C7: once a [+++ b/<path>] header with an excluded path is read, the
    lines after it, however many, yield no AddedLine entry until the next
    [+++ b/] header: the parser's answer is the entries of the lines before
    the header, followed by what the lines from the next header on yield
    when read with the cursor unset. *)
Theorem excluded_header_drops_following_lines :
  forall (diff : str) (pre : list str) (path : str) (mid post : list str),
    splitlines diff = pre ++ (py "+++ b/" ++ path) :: mid ++ post ->
    is_excluded path = true ->
    Forall (fun l => startswith l (py "+++ b/") = false) mid ->
    _parse_added_lines diff =
    results (parse_from {| current_file := None; results := parse_lines pre |}
                        post).
Proof.
  intros diff pre path mid post Hlines Hex Hmid.
  unfold _parse_added_lines, parse_lines at 1.
  rewrite Hlines, results_parse_app, parse_from_cons, parse_step_header, Hex.
  rewrite parse_from_app; simpl results.
  now rewrite (parse_from_idle _ (lines := mid)).
Qed.

Lemma excluded_header_drops_following_lines_witness :
  _parse_added_lines
    (py "+++ b/src/a.py" ++ NL ++ py "+keep" ++ NL ++
     py "+++ b/robodev/reviewer.py" ++ NL ++ py "+one" ++ NL ++ py "+two" ++ NL
     ++ py " context" ++ NL ++ py "+three" ++ NL ++
     py "+++ b/src/b.py" ++ NL ++ py "+last") =
  [(py "src/a.py", py "keep"); (py "src/b.py", py "last")].
Proof.
  rewrite (@excluded_header_drops_following_lines _
             [py "+++ b/src/a.py"; py "+keep"]
             (py "robodev/reviewer.py")
             [py "+one"; py "+two"; py " context"; py "+three"]
             [py "+++ b/src/b.py"; py "+last"]).
  - reflexivity.
  - reflexivity.
  - reflexivity.
  - repeat constructor.
Defined.

(** What the parser may emit for the lines [all]: the text of a line of
    [all] that starts with one plus sign but not with three, under a
    non-empty path that is not excluded. *)
Definition emitted_from (all : list str) (e : str * str) : Prop :=
  In (py "+" ++ snd e) all /\
  startswith (py "+" ++ snd e) (py "+++") = false /\
  truthy (fst e) = true /\
  is_excluded (fst e) = false.

Definition cursor_ok (st : parse_state) : Prop :=
  match current_file st with
  | Some file => is_excluded file = false
  | None => True
  end.

Lemma startswith_split (s p : str) :
  startswith s p = true -> s = p ++ skipn (length p) s.
Proof.
  revert s; induction p as [|c p IH]; intros s H; [reflexivity|].
  destruct s as [|d s]; [discriminate|].
  cbn [startswith] in H.
  apply andb_true_iff in H as [Hcd H].
  apply N.eqb_eq in Hcd; subst.
  cbn [length skipn app]; f_equal; auto.
Qed.

Lemma startswith_plus (line : str) :
  startswith line (py "+") = true -> line = py "+" ++ skipn 1 line.
Proof. apply startswith_split. Qed.

Lemma parse_step_emitted (all : list str) (st : parse_state) (line : str) :
  In line all ->
  cursor_ok st ->
  Forall (emitted_from all) (results st) ->
  cursor_ok (parse_step st line) /\
  Forall (emitted_from all) (results (parse_step st line)).
Proof.
  intros Hin Hcur Hres; unfold parse_step.
  destruct (startswith line (py "+++ b/")).
  - destruct (is_excluded (skipn 6 line)) eqn:Hex; split;
      solve [assumption | exact I].
  - destruct (current_file st) as [file|] eqn:Hfile; [|now split].
    destruct (truthy file && startswith line (py "+")
              && negb (startswith line (py "+++"))) eqn:Hcond;
      [|now split].
    apply andb_true_iff in Hcond as [Hcond Hppp].
    apply andb_true_iff in Hcond as [Htruthy Hplus].
    apply negb_true_iff in Hppp.
    unfold cursor_ok in Hcur; rewrite Hfile in Hcur.
    split; [exact Hcur|].
    apply Forall_app; split; [assumption|].
    constructor; [|constructor].
    apply startswith_plus in Hplus.
    unfold emitted_from; cbn [fst snd].
    rewrite <- Hplus; auto.
Qed.

Lemma parse_from_emitted (all lines : list str) (st : parse_state) :
  incl lines all ->
  cursor_ok st ->
  Forall (emitted_from all) (results st) ->
  Forall (emitted_from all) (results (parse_from st lines)).
Proof.
  revert st; induction lines as [|l ls IH]; intros st Hincl Hcur Hres.
  - exact Hres.
  - rewrite parse_from_cons.
    destruct (@parse_step_emitted all st l) as [Hcur' Hres']; auto.
    + apply Hincl; now left.
    + apply IH; auto.
      intros x Hx; apply Hincl; now right.
Qed.

Lemma parse_added_lines_emitted (diff : str) :
  Forall (emitted_from (splitlines diff)) (_parse_added_lines diff).
Proof.
  apply parse_from_emitted; [apply incl_refl | exact I | constructor].
Qed.

(** C8: a diff line that begins with [+++] is never emitted as an AddedLine,
    also when it is an added code line whose text begins with [++]: no entry
    of the parser's answer holds the text of such a line. *)
Theorem triple_plus_line_never_emitted :
  forall (diff line : str),
    startswith line (py "+++") = true ->
    ~ In (skipn 1 line) (List.map snd (_parse_added_lines diff)).
Proof.
  intros diff line Hline Hin.
  apply in_map_iff in Hin as [e [Htext He]].
  pose proof (parse_added_lines_emitted diff) as Hall.
  rewrite Forall_forall in Hall.
  destruct (Hall e He) as [_ [Hnot _]].
  rewrite Htext in Hnot.
  assert (Hplus : startswith line (py "+") = true)
    by (apply startswith_trans with (p := py "+++");
        [exact Hline | reflexivity]).
  apply startswith_plus in Hplus.
  rewrite <- Hplus in Hnot; congruence.
Qed.

Lemma triple_plus_line_never_emitted_witness :
  _parse_added_lines
    (py "+++ b/src/loop.c" ++ NL ++ py "+++i;" ++ NL ++ py "+j = i;") =
  [(py "src/loop.c", py "j = i;")]
  /\ ~ In (py "++i;")
         (List.map snd
            (_parse_added_lines
               (py "+++ b/src/loop.c" ++ NL ++ py "+++i;" ++ NL
                ++ py "+j = i;"))).
Proof.
  split.
  - reflexivity.
  - apply (@triple_plus_line_never_emitted _ (py "+++i;")); reflexivity.
Defined.

(** C9: the header [+++ b/] with an empty path is no excluded path, and
    sets the cursor to the empty string, which is false as a condition;
    so the lines after it, up to the next header, yield no AddedLine entry,
    exactly as after the header of an excluded file. *)
Theorem empty_path_header_drops_following_lines :
  forall (diff : str) (pre mid post : list str),
    splitlines diff = pre ++ py "+++ b/" :: mid ++ post ->
    Forall (fun l => startswith l (py "+++ b/") = false) mid ->
    is_excluded [] = false /\
    current_file (parse_from parse_init (pre ++ [py "+++ b/"])) = Some [] /\
    truthy_opt (Some []) = false /\
    _parse_added_lines diff =
    results (parse_from {| current_file := None; results := parse_lines pre |}
                        post).
Proof.
  intros diff pre mid post Hlines Hmid.
  assert (Hhdr : forall st,
             parse_step st (py "+++ b/")
             = {| current_file := Some []; results := results st |})
    by reflexivity.
  split; [reflexivity|].
  split; [now rewrite parse_from_app, parse_from_cons, Hhdr|].
  split; [reflexivity|].
  unfold _parse_added_lines, parse_lines at 1.
  rewrite Hlines, results_parse_app, parse_from_cons, Hhdr.
  rewrite parse_from_app, (parse_from_idle _ (lines := mid)) by auto.
  apply results_falsy_cursor.
Qed.

Lemma empty_path_header_drops_following_lines_witness :
  _parse_added_lines
    (py "+++ b/src/a.py" ++ NL ++ py "+keep" ++ NL ++
     py "+++ b/" ++ NL ++ py "+one" ++ NL ++ py "+two" ++ NL ++
     py "+++ b/src/b.py" ++ NL ++ py "+last") =
  [(py "src/a.py", py "keep"); (py "src/b.py", py "last")].
Proof.
  destruct (@empty_path_header_drops_following_lines
              (py "+++ b/src/a.py" ++ NL ++ py "+keep" ++ NL ++
               py "+++ b/" ++ NL ++ py "+one" ++ NL ++ py "+two" ++ NL ++
               py "+++ b/src/b.py" ++ NL ++ py "+last")
              [py "+++ b/src/a.py"; py "+keep"]
              [py "+one"; py "+two"]
              [py "+++ b/src/b.py"; py "+last"])
    as [_ [_ [_ H]]].
  - reflexivity.
  - repeat constructor.
  - rewrite H; reflexivity.
Defined.

(** ** The detectors on the file list *)

Lemma coverage_scan_from (files : list ChangedFile) (src test : bool) :
  fold_left coverage_step files (src, test) =
  (src || existsb (fun f => counts_as_source f
                            && negb (is_test_name (filename f))) files,
   test || existsb counts_as_test files).
Proof.
  revert src test; induction files as [|f fs IH]; intros src test.
  - simpl; now rewrite !orb_false_r.
  - cbn [fold_left existsb]; unfold coverage_step at 2.
    unfold counts_as_source, counts_as_test, considered.
    destruct (is_excluded (filename f)); cbn [negb andb orb];
      [apply IH|].
    destruct (is_changed f); cbn [andb orb]; [|apply IH].
    destruct (is_test_name (filename f)); cbn [negb andb orb].
    + rewrite IH, andb_false_r; cbn [orb].
      now rewrite orb_true_r.
    + destruct (has_source_suffix (filename f)); cbn [orb];
        rewrite IH; [now rewrite orb_true_r | reflexivity].
Qed.

Lemma coverage_scan_flags (files : list ChangedFile) :
  coverage_scan files =
  (existsb (fun f => counts_as_source f && negb (is_test_name (filename f)))
           files,
   existsb counts_as_test files).
Proof. unfold coverage_scan; now rewrite coverage_scan_from. Qed.

Lemma check_test_coverage_cases (files : list ChangedFile) :
  _check_test_coverage files true =
  if existsb counts_as_source files && negb (existsb counts_as_test files)
  then [coverage_message] else [].
Proof.
  unfold _check_test_coverage; cbn [negb].
  rewrite coverage_scan_flags.
  destruct (existsb counts_as_test files) eqn:Htest.
  - now rewrite !andb_false_r.
  - rewrite !andb_true_r.
    replace (existsb (fun f => counts_as_source f
                               && negb (is_test_name (filename f))) files)
      with (existsb counts_as_source files); [reflexivity|].
    induction files as [|f fs IH]; [reflexivity|].
    cbn [existsb] in *.
    apply orb_false_iff in Htest as [Hf Hfs].
    rewrite (IH Hfs); f_equal.
    unfold counts_as_test, counts_as_source in *.
    destruct (considered f); [|reflexivity].
    cbn [andb] in *; rewrite Hf; now rewrite andb_true_r.
Qed.

(** C5: with [requireTests] true the test-coverage detector answers with
    exactly one warning or with nothing, and with the warning exactly when
    some considered file (not excluded, added or modified) has a source
    extension while no considered file has a test name.  Inside the loop the
    test-name check comes first: the "source changed" flag is raised only by
    a considered file that has a source extension and no test name. *)
Theorem test_coverage_warning_iff :
  forall files : list ChangedFile,
    (_check_test_coverage files true = [coverage_message] <->
       (exists f, In f files /\ considered f = true
                  /\ has_source_suffix (filename f) = true) /\
       (forall f, In f files -> considered f = true ->
                  is_test_name (filename f) = false)) /\
    (_check_test_coverage files true = [coverage_message] \/
     _check_test_coverage files true = []) /\
    finding_severity coverage_message = Some warning /\
    fst (coverage_scan files) =
      existsb (fun f => considered f && has_source_suffix (filename f)
                        && negb (is_test_name (filename f))) files.
Proof.
  intros files.
  assert (Hsrc : existsb counts_as_source files = true <->
                 exists f, In f files /\ considered f = true
                           /\ has_source_suffix (filename f) = true).
  { rewrite existsb_exists; unfold counts_as_source.
    split; intros [f [Hin H]]; exists f.
    - apply andb_true_iff in H; tauto.
    - split; [tauto|]; apply andb_true_iff; tauto. }
  assert (Htest : existsb counts_as_test files = false <->
                  forall f, In f files -> considered f = true ->
                            is_test_name (filename f) = false).
  { rewrite <- not_true_iff_false, existsb_exists; unfold counts_as_test.
    split.
    - intros Hno f Hin Hcons.
      destruct (is_test_name (filename f)) eqn:Hname; [|reflexivity].
      exfalso; apply Hno; exists f; now rewrite Hcons, Hname.
    - intros Hall [f [Hin H]].
      apply andb_true_iff in H as [Hcons Hname].
      rewrite (Hall f Hin Hcons) in Hname; discriminate. }
  rewrite check_test_coverage_cases.
  repeat split.
  - apply Hsrc.
    destruct (existsb counts_as_source files); [reflexivity|].
    cbn [andb] in H; discriminate H.
  - apply Htest.
    destruct (existsb counts_as_test files); [|reflexivity].
    rewrite andb_false_r in H; discriminate H.
  - intros [Hex Hall].
    apply Hsrc in Hex; apply Htest in Hall; now rewrite Hex, Hall.
  - destruct (existsb counts_as_source files
              && negb (existsb counts_as_test files)); auto.
  - rewrite coverage_scan_flags; reflexivity.
Qed.

(** The two examples of the specification: a modified source file alone
    earns the warning; together with an added test file it earns nothing. *)
Lemma test_coverage_warning_iff_witness :
  ((exists f, In f [ {| filename := py "src/app.py"; status := py "modified";
                        changes := Some 3%Z |} ]
              /\ considered f = true
              /\ has_source_suffix (filename f) = true) /\
   (forall f, In f [ {| filename := py "src/app.py"; status := py "modified";
                        changes := Some 3%Z |} ] ->
              considered f = true -> is_test_name (filename f) = false)) /\
  _check_test_coverage
    [ {| filename := py "src/app.py"; status := py "modified";
         changes := Some 3%Z |};
      {| filename := py "tests/test_app.py"; status := py "added";
         changes := Some 9%Z |} ] true = [].
Proof.
  split.
  - apply (proj1 (proj1 (test_coverage_warning_iff _))); reflexivity.
  - reflexivity.
Defined.

Lemma size_message_severity (name : str) (n max_changed : Z) :
  finding_severity (size_message name n max_changed) = Some warning.
Proof. reflexivity. Qed.

Lemma large_pr_message_severity (n : nat) (max_files : Z) :
  finding_severity (large_pr_message n max_files) = Some warning.
Proof. reflexivity. Qed.

Lemma check_file_size_complete (files : list ChangedFile) (max_changed : Z)
  (f : ChangedFile) :
  In f files ->
  (dict_get (changes f) 0 > max_changed)%Z ->
  In (size_message (filename f) (dict_get (changes f) 0%Z) max_changed)
     (_check_file_size files max_changed).
Proof.
  intros Hin Hgt; unfold _check_file_size.
  apply in_flat_map; exists f; split; [assumption|].
  apply Z.gtb_gt in Hgt; rewrite Hgt; now left.
Qed.

(** C10: the size detector and the file-count detector never look at the
    excluded prefixes.  A file with an excluded path and more changed lines
    than the threshold gets its size warning, and the file count that is
    held against [max_files_per_pr] is that of the excluded and the other
    files together. *)
Theorem size_and_count_detectors_ignore_exclusion :
  forall (files : list ChangedFile) (max_changed max_files : Z),
    (forall f,
        In f files ->
        is_excluded (filename f) = true ->
        (dict_get (changes f) 0 > max_changed)%Z ->
        In (size_message (filename f) (dict_get (changes f) 0%Z) max_changed)
           (_check_file_size files max_changed) /\
        finding_severity
          (size_message (filename f) (dict_get (changes f) 0%Z) max_changed)
        = Some warning) /\
    (let excluded := filter (fun f => is_excluded (filename f)) files in
     let others := filter (fun f => negb (is_excluded (filename f))) files in
     (Z.of_nat (length excluded + length others) > max_files)%Z ->
     _check_large_pr files max_files =
       [large_pr_message (length excluded + length others) max_files] /\
     finding_severity
       (large_pr_message (length excluded + length others) max_files)
     = Some warning).
Proof.
  intros files max_changed max_files; split.
  - intros f Hin _ Hgt; split.
    + now apply check_file_size_complete.
    + apply size_message_severity.
  - cbv zeta.
    rewrite (filter_length (fun f => is_excluded (filename f)) files).
    intros Hgt; split; [|apply large_pr_message_severity].
    unfold _check_large_pr.
    apply Z.gtb_gt in Hgt; now rewrite Hgt.
Qed.

(** Two files of the review infrastructure: both are counted, and the big
    one is flagged. *)
Lemma size_and_count_detectors_ignore_exclusion_witness :
  In (size_message (py "robodev/reviewer.py") 501 500)
     (_check_file_size
        [ {| filename := py "robodev/reviewer.py"; status := py "modified";
             changes := Some 501%Z |};
          {| filename := py ".github/workflows/ci.yml";
             status := py "added"; changes := Some 12%Z |} ] 500)
  /\ _check_large_pr
       [ {| filename := py "robodev/reviewer.py"; status := py "modified";
            changes := Some 501%Z |};
         {| filename := py ".github/workflows/ci.yml";
            status := py "added"; changes := Some 12%Z |} ] 1
     = [large_pr_message 2 1].
Proof.
  pose proof (@size_and_count_detectors_ignore_exclusion
                [ {| filename := py "robodev/reviewer.py";
                     status := py "modified"; changes := Some 501%Z |};
                  {| filename := py ".github/workflows/ci.yml";
                     status := py "added"; changes := Some 12%Z |} ]
                500%Z 1%Z) as [Hsize Hcount].
  split.
  - apply (Hsize {| filename := py "robodev/reviewer.py";
                    status := py "modified"; changes := Some 501%Z |}).
    + now left.
    + reflexivity.
    + reflexivity.
  - apply Hcount; reflexivity.
Defined.

Lemma coverage_step_excluded (flags : bool * bool) (f : ChangedFile) :
  is_excluded (filename f) = true -> coverage_step flags f = flags.
Proof.
  intros Hex; unfold coverage_step; destruct flags; now rewrite Hex.
Qed.

Lemma coverage_step_kept (flags : bool * bool) (f : ChangedFile) :
  is_excluded (filename f) = false ->
  coverage_step flags f = spec_coverage_step flags f.
Proof.
  intros Hex; unfold coverage_step, spec_coverage_step.
  destruct flags; now rewrite Hex.
Qed.

Lemma coverage_scan_filter (files : list ChangedFile) (flags : bool * bool) :
  fold_left coverage_step files flags =
  fold_left spec_coverage_step
    (filter (fun f => negb (is_excluded (filename f))) files) flags.
Proof.
  revert flags; induction files as [|f fs IH]; intros flags; [reflexivity|].
  cbn [fold_left filter].
  destruct (is_excluded (filename f)) eqn:Hex; cbn [negb fold_left].
  - now rewrite coverage_step_excluded.
  - now rewrite coverage_step_kept.
Qed.

Lemma parse_added_lines_not_excluded (diff : str) :
  Forall (fun e => is_excluded (fst e) = false) (_parse_added_lines diff).
Proof.
  eapply Forall_impl; [|apply parse_added_lines_emitted].
  intros e He; apply He.
Qed.

(** C3, as the code has it: the excluded prefixes are applied in two places.
    The parser applies them to the diff, so that no AddedLine carries an
    excluded path and the banned-pattern detector, which reads the diff
    through the parser only, needs no test of its own.  The test-coverage
    detector applies them again, to the file list: it answers what the
    exclusion-free detector answers on the file list without the excluded
    files. *)
Theorem exclusion_in_parser_and_test_coverage :
  forall (engine : RegexEngine) (diff : str) (files : list ChangedFile)
         (require_tests : bool),
    Forall (fun e => is_excluded (fst e) = false) (_parse_added_lines diff) /\
    (forall (diff' : str) (patterns : list BannedPattern),
        _parse_added_lines diff' = _parse_added_lines diff ->
        _check_banned_patterns diff' patterns =
        _check_banned_patterns diff patterns) /\
    _check_test_coverage files require_tests =
    spec_check_test_coverage
      (filter (fun f => negb (is_excluded (filename f))) files) require_tests.
Proof.
  intros engine diff files require_tests; split; [|split].
  - apply parse_added_lines_not_excluded.
  - intros diff' patterns Hsame.
    unfold _check_banned_patterns; now rewrite Hsame.
  - unfold _check_test_coverage, spec_check_test_coverage, coverage_scan.
    now rewrite coverage_scan_filter.
Qed.

Lemma exclusion_in_parser_and_test_coverage_witness :
  _check_banned_patterns
    (py "+++ b/robodev/config.yml" ++ NL ++ py "+eval(" ++ NL ++
     py "+++ b/src/a.js" ++ NL ++ py "+let x = 1;")
    [ {| regex := Some (py "eval\("); label := None; severity := None |} ]
  = _check_banned_patterns
      (py "+++ b/src/a.js" ++ NL ++ py "+let x = 1;")
      [ {| regex := Some (py "eval\("); label := None; severity := None |} ].
Proof.
  apply (@exclusion_in_parser_and_test_coverage python_re
           (py "+++ b/src/a.js" ++ NL ++ py "+let x = 1;") [] true).
  reflexivity.
Defined.

(** C3, as the specification words it, fails on the test-coverage detector:
    a modified source file of the review infrastructure earns the warning
    from a detector without exclusion test, and nothing from the module's
    detector. *)
Lemma test_coverage_applies_exclusion :
  spec_check_test_coverage
    [ {| filename := py "robodev/reviewer.py"; status := py "modified";
         changes := Some 10%Z |} ] true = [coverage_message]
  /\ _check_test_coverage
       [ {| filename := py "robodev/reviewer.py"; status := py "modified";
            changes := Some 10%Z |} ] true = []
  /\ _check_test_coverage
       [ {| filename := py "robodev/reviewer.py"; status := py "modified";
            changes := Some 10%Z |} ] true
     <> spec_check_test_coverage
          [ {| filename := py "robodev/reviewer.py"; status := py "modified";
               changes := Some 10%Z |} ] true.
Proof. split; [reflexivity|]; split; [reflexivity|]; discriminate. Qed.

(** ** The banned-pattern detector *)

Section BannedProperties.

Context {engine : RegexEngine}.

Lemma scan_entry_ok (text : str) (entry : BannedPattern) (ms : list str) :
  matches_in text entry ms ->
  scan_entry text entry = Return (List.map (finding_of entry) ms).
Proof. intros H; unfold scan_entry; now rewrite H. Qed.

Lemma scan_entry_raise (text : str) (entry : BannedPattern) (e : exn) :
  finditer (dict_get (regex entry) []) text = Raise e ->
  scan_entry text entry = Raise e.
Proof. intros H; unfold scan_entry; now rewrite H. Qed.

Lemma scan_patterns_ok (text : str) (patterns : list BannedPattern)
  (matches : list (list str)) :
  Forall2 (matches_in text) patterns matches ->
  forall issues,
    scan_patterns text patterns issues =
    Return (issues ++ findings_for patterns matches).
Proof.
  induction 1 as [|entry ms patterns matches Hentry _ IH]; intros issues.
  - simpl; now rewrite app_nil_r.
  - cbn [scan_patterns]; rewrite (scan_entry_ok Hentry); cbn [bind].
    rewrite IH, <- app_assoc; reflexivity.
Qed.

Lemma scan_patterns_raise (text : str) (before : list BannedPattern)
  (entry : BannedPattern) (after : list BannedPattern) (e : exn) :
  Forall (compiles text) before ->
  finditer (dict_get (regex entry) []) text = Raise e ->
  forall issues,
    scan_patterns text (before ++ entry :: after) issues = Raise e.
Proof.
  intros Hbefore Hentry.
  induction Hbefore as [|b bs [ms Hb] _ IH]; intros issues.
  - cbn [app scan_patterns]; now rewrite (scan_entry_raise _ _ Hentry).
  - cbn [app scan_patterns]; rewrite (scan_entry_ok Hb); cbn [bind].
    apply IH.
Qed.

Lemma compiles_all (text : str) (patterns : list BannedPattern) :
  Forall (compiles text) patterns ->
  exists matches, Forall2 (matches_in text) patterns matches.
Proof.
  induction 1 as [|entry patterns [ms Hentry] _ [matches IH]].
  - exists []; constructor.
  - exists (ms :: matches); now constructor.
Qed.

Lemma check_banned_patterns_nonempty (diff : str)
  (patterns : list BannedPattern) :
  _parse_added_lines diff <> [] ->
  _check_banned_patterns diff patterns =
  scan_patterns (scan_buffer diff) patterns [].
Proof.
  intros Hlines; unfold _check_banned_patterns, scan_buffer.
  destruct (_parse_added_lines diff); [contradiction|reflexivity].
Qed.

Lemma check_banned_patterns_empty (diff : str)
  (patterns : list BannedPattern) :
  _parse_added_lines diff = [] ->
  _check_banned_patterns diff patterns = Return [].
Proof. intros H; unfold _check_banned_patterns; now rewrite H. Qed.

End BannedProperties.

Lemma finding_of_severity (entry : BannedPattern) (matched : str) :
  finding_severity (finding_of entry matched)
  = Some (configured_severity entry).
Proof.
  unfold finding_of, configured_severity, icon_of.
  destruct (str_eqb (dict_get (severity entry) (py "warning")) (py "error"));
    reflexivity.
Qed.

Lemma finding_of_quotes_match (entry : BannedPattern) (matched : str) :
  contains (firstn 80 matched) (finding_of entry matched) = true.
Proof.
  unfold finding_of, banned_message.
  do 5 apply contains_app_l.
  apply contains_prefix, startswith_app.
Qed.

Lemma findings_for_length (patterns : list BannedPattern)
  (matches : list (list str)) :
  length patterns = length matches ->
  length (findings_for patterns matches)
  = list_sum (List.map (@length str) matches).
Proof.
  revert matches; induction patterns as [|entry patterns IH];
    intros [|ms matches] Hlen; try discriminate; [reflexivity|].
  unfold findings_for in *; cbn [combine flat_map List.map list_sum fst snd].
  rewrite length_app, length_map, IH; [reflexivity|].
  now injection Hlen.
Qed.

(** C6, as the code has it: when at least one added line is parsed and the
    regex of every configured pattern compiles, the detector answers, pattern
    after pattern, with one Finding per match of the pattern in the
    newline-joined buffer of the added-line texts; a Finding has the severity
    that its entry configures (error for "error", warning otherwise) and its
    message holds the first 80 characters of the matched text.  When no added
    line is parsed the detector answers with nothing, whatever the patterns
    would match. *)
Theorem banned_findings_per_match :
  forall (engine : RegexEngine) (diff : str) (patterns : list BannedPattern),
    (_parse_added_lines diff = [] ->
     _check_banned_patterns diff patterns = Return []) /\
    (forall matches : list (list str),
        _parse_added_lines diff <> [] ->
        Forall2 (matches_in (scan_buffer diff)) patterns matches ->
        _check_banned_patterns diff patterns
        = Return (findings_for patterns matches) /\
        length (findings_for patterns matches)
        = list_sum (List.map (@length str) matches)) /\
    (forall (entry : BannedPattern) (matched : str),
        finding_severity (finding_of entry matched)
        = Some (configured_severity entry) /\
        contains (firstn 80 matched) (finding_of entry matched) = true).
Proof.
  intros engine diff patterns; split; [|split].
  - apply check_banned_patterns_empty.
  - intros matches Hlines Hmatches; split.
    + rewrite check_banned_patterns_nonempty by assumption.
      now rewrite (scan_patterns_ok Hmatches).
    + apply findings_for_length.
      induction Hmatches; cbn [length]; congruence.
  - intros entry matched; split.
    + apply finding_of_severity.
    + apply finding_of_quotes_match.
Qed.

(** The example of the specification: the added line [eval(userInput)] and
    the one pattern [eval\(] of severity error give exactly one Finding, of
    severity error. *)
Lemma banned_findings_per_match_witness :
  let entry := {| regex := Some (py "eval\(");
                  label := Some (py "eval-usage");
                  severity := Some (py "error") |} in
  _check_banned_patterns
    (py "+++ b/app.js" ++ NL ++ py "+eval(userInput)") [entry]
  = Return [finding_of entry (py "eval(")]
  /\ finding_severity (finding_of entry (py "eval(")) = Some error
  /\ _check_banned_patterns
       (py "+++ b/robodev/config.yml" ++ NL ++ py "+eval(userInput)") [entry]
     = Return [].
Proof.
  intros entry.
  destruct (@banned_findings_per_match python_re
              (py "+++ b/app.js" ++ NL ++ py "+eval(userInput)") [entry])
    as [_ [Hfound Hsev]].
  split; [|split].
  - apply (Hfound [[py "eval("]]).
    + discriminate.
    + repeat constructor.
  - apply Hsev.
  - apply (@banned_findings_per_match python_re
             (py "+++ b/robodev/config.yml" ++ NL ++ py "+eval(userInput)")
             [entry]).
    reflexivity.
Defined.

(** C6, as the specification words it, fails when no added line is parsed:
    the pattern [.*] has one match, the empty one, in the empty buffer, and
    the detector answers with no Finding. *)
Lemma no_added_lines_no_findings :
  let entry := {| regex := Some (py ".*"); label := None;
                  severity := None |} in
  _parse_added_lines [] = []
  /\ finditer (dict_get (regex entry) []) (scan_buffer []) = Return [[]]
  /\ _check_banned_patterns [] [entry] = Return [].
Proof. repeat split. Qed.

(** C2, as the code has it: the detector does not catch the error of the
    regex library.  With no parsed added line it answers with nothing and
    compiles no pattern.  Otherwise it raises at the first pattern whose
    regex does not compile, dropping the findings of the patterns before it,
    and it returns when every regex compiles. *)
Theorem banned_patterns_propagate_regex_error :
  forall (engine : RegexEngine) (diff : str) (patterns : list BannedPattern),
    (_parse_added_lines diff = [] ->
     _check_banned_patterns diff patterns = Return []) /\
    (forall (before : list BannedPattern) (entry : BannedPattern)
            (after : list BannedPattern) (e : exn),
        _parse_added_lines diff <> [] ->
        patterns = before ++ entry :: after ->
        Forall (compiles (scan_buffer diff)) before ->
        finditer (dict_get (regex entry) []) (scan_buffer diff) = Raise e ->
        _check_banned_patterns diff patterns = Raise e) /\
    (_parse_added_lines diff <> [] ->
     Forall (compiles (scan_buffer diff)) patterns ->
     exists issues, _check_banned_patterns diff patterns = Return issues).
Proof.
  intros engine diff patterns; split; [|split].
  - apply check_banned_patterns_empty.
  - intros before entry after e Hlines -> Hbefore Hentry.
    rewrite check_banned_patterns_nonempty by assumption.
    now apply scan_patterns_raise.
  - intros Hlines Hall.
    destruct (compiles_all Hall) as [matches Hmatches].
    exists (findings_for patterns matches).
    rewrite check_banned_patterns_nonempty by assumption.
    now rewrite (scan_patterns_ok Hmatches).
Qed.

Lemma banned_patterns_propagate_regex_error_witness :
  let good := {| regex := Some (py "eval\("); label := None;
                 severity := Some (py "error") |} in
  let bad := {| regex := Some (py "eval("); label := None;
                severity := None |} in
  let last := {| regex := Some (py "userInput"); label := None;
                 severity := None |} in
  _check_banned_patterns
    (py "+++ b/app.js" ++ NL ++ py "+eval(userInput)") [good; bad; last]
  = Raise re_error
  /\ _check_banned_patterns
       (py "+++ b/.github/ci.yml" ++ NL ++ py "+eval(userInput)")
       [good; bad; last]
     = Return []
  /\ exists issues,
       _check_banned_patterns
         (py "+++ b/app.js" ++ NL ++ py "+eval(userInput)") [good; last]
       = Return issues.
Proof.
  intros good bad last; split; [|split].
  - destruct (@banned_patterns_propagate_regex_error python_re
                (py "+++ b/app.js" ++ NL ++ py "+eval(userInput)")
                [good; bad; last])
      as [_ [Hraise _]].
    apply (Hraise [good] bad [last]).
    + discriminate.
    + reflexivity.
    + constructor; [|constructor].
      exists [py "eval("]; reflexivity.
    + reflexivity.
  - apply (@banned_patterns_propagate_regex_error python_re
             (py "+++ b/.github/ci.yml" ++ NL ++ py "+eval(userInput)")
             [good; bad; last]).
    reflexivity.
  - apply (@banned_patterns_propagate_regex_error python_re
             (py "+++ b/app.js" ++ NL ++ py "+eval(userInput)")
             [good; last]).
    + discriminate.
    + constructor; [|constructor; [|constructor]].
      * exists [py "eval("]; reflexivity.
      * exists [py "userInput"]; reflexivity.
Defined.

(** C2, as the specification words it, fails: the pattern [eval(] does not
    compile, and the detector raises instead of going on to the pattern
    [userInput], which matches. *)
Lemma invalid_regex_aborts_detector :
  finditer (py "eval(") (py "eval(userInput)") = Raise re_error
  /\ finditer (py "userInput") (py "eval(userInput)")
     = Return [py "userInput"]
  /\ _check_banned_patterns
       (py "+++ b/app.js" ++ NL ++ py "+eval(userInput)")
       [ {| regex := Some (py "eval("); label := None; severity := None |};
         {| regex := Some (py "userInput"); label := None;
            severity := None |} ]
     = Raise re_error.
Proof. repeat split. Qed.

(** ** The verdict *)

Lemma error_finding_has_cross (issue : str) :
  finding_severity issue = Some error -> contains CROSS issue = true.
Proof.
  unfold finding_severity.
  destruct (startswith issue (py "- " ++ CROSS ++ py " ")) eqn:Hprefix.
  - intros _; apply startswith_split in Hprefix; rewrite Hprefix.
    apply (contains_app_l CROSS (py "- ")).
    apply contains_prefix; reflexivity.
  - destruct (startswith issue (py "- " ++ WARN ++ py " ")); discriminate.
Qed.

Lemma has_errors_of_error_finding (issues : list str) :
  Exists (fun i => finding_severity i = Some error) issues ->
  has_errors issues = true.
Proof.
  intros H; apply Exists_exists in H as [i [Hin Hsev]].
  apply existsb_exists; exists i; split; [assumption|].
  now apply error_finding_has_cross.
Qed.

Lemma build_review_event (issues : list str) (ai_summary : option str) :
  event (build_review issues ai_summary)
  = (if has_errors issues then REQUEST_CHANGES else COMMENT)
  /\ exit_code (build_review issues ai_summary)
     = (if has_errors issues then 1 else 0)%Z.
Proof.
  unfold build_review; destruct (has_errors issues); split; reflexivity.
Qed.

(** C4: the exit code of a review is 1 when the outcome is REQUEST_CHANGES
    and 0 otherwise, and one Finding of severity error among the findings,
    whatever the others are, makes the outcome REQUEST_CHANGES and the exit
    code 1.  A run whose detectors return hands exactly this review to the
    platform and returns its exit code. *)
Theorem exit_code_follows_outcome :
  forall (issues : list str) (ai_summary : option str),
    exit_code (build_review issues ai_summary)
    = match event (build_review issues ai_summary) with
      | REQUEST_CHANGES => 1%Z
      | COMMENT => 0%Z
      end /\
    (Exists (fun i => finding_severity i = Some error) issues ->
     event (build_review issues ai_summary) = REQUEST_CHANGES /\
     exit_code (build_review issues ai_summary) = 1%Z) /\
    (forall (engine : RegexEngine) (cfg : Config) (files : list ChangedFile)
            (diff : str) (ai_reply : option str),
        collect_issues (dict_get (code_review cfg) empty_review_config)
                       files diff = Return issues ->
        ai_summary = (if dict_get (ai_review_enabled cfg) false
                      then ai_reply else None) ->
        run cfg files diff ai_reply
        = Return (build_review issues ai_summary)).
Proof.
  intros issues ai_summary.
  destruct (build_review_event issues ai_summary) as [Hevent Hcode].
  split; [|split].
  - rewrite Hevent, Hcode; now destruct (has_errors issues).
  - intros Herr; apply has_errors_of_error_finding in Herr.
    now rewrite Hevent, Hcode, Herr.
  - intros engine cfg files diff ai_reply Hissues ->.
    unfold run; now rewrite Hissues.
Qed.

(** One error between two warnings, and a run that finds one error. *)
Lemma exit_code_follows_outcome_witness :
  (let issues :=
     [ size_message (py "src/app.py") 501 500;
       finding_of {| regex := Some (py "eval\(");
                     label := Some (py "eval-usage");
                     severity := Some (py "error") |} (py "eval(");
       coverage_message ] in
   event (build_review issues None) = REQUEST_CHANGES /\
   exit_code (build_review issues None) = 1%Z)
  /\
  (let entry := {| regex := Some (py "eval\(");
                   label := Some (py "eval-usage");
                   severity := Some (py "error") |} in
   let cfg := {| code_review :=
                   Some {| max_changed_lines_per_file := None;
                           max_files_per_pr := None;
                           banned_patterns := Some [entry];
                           require_tests := Some false |};
                 ai_review_enabled := Some true |} in
   run cfg [] (py "+++ b/app.js" ++ NL ++ py "+eval(userInput)")
       (Some (py "LGTM"))
   = Return (build_review [finding_of entry (py "eval(")]
                          (Some (py "LGTM")))).
Proof.
  split.
  - intros issues.
    apply (proj1 (proj2 (exit_code_follows_outcome issues None))).
    apply Exists_cons_tl, Exists_cons_hd; reflexivity.
  - intros entry cfg.
    apply (proj2 (proj2 (exit_code_follows_outcome
                           [finding_of entry (py "eval(")]
                           (Some (py "LGTM")))));
      reflexivity.
Defined.

(** C1 on the code: a run whose only Finding is a warning asks
    for changes all the same, because the text that the warning quotes from
    the diff holds the cross mark.  The configuration holds one pattern,
    [TODO.*] of severity warning; the pull request adds one line to
    README.md. *)
Theorem warning_quoting_cross_mark_requests_changes :
  let entry := {| regex := Some (py "TODO.*"); label := Some (py "todo");
                  severity := Some (py "warning") |} in
  let review_cfg := {| max_changed_lines_per_file := None;
                       max_files_per_pr := None;
                       banned_patterns := Some [entry];
                       require_tests := None |} in
  let cfg := {| code_review := Some review_cfg;
                ai_review_enabled := None |} in
  let files := [ {| filename := py "README.md"; status := py "modified";
                    changes := Some 1%Z |} ] in
  let diff := py "+++ b/README.md" ++ NL
              ++ py "+- TODO " ++ CROSS ++ py " write the docs" in
  let issue := finding_of entry (py "TODO " ++ CROSS ++ py " write the docs") in
  collect_issues review_cfg files diff = Return [issue]
  /\ finding_severity issue = Some warning
  /\ exists r, run cfg files diff None = Return r
               /\ event r = REQUEST_CHANGES /\ exit_code r = 1%Z.
Proof.
  cbv zeta; split; [reflexivity|]; split; [reflexivity|].
  eexists; split; [reflexivity|]; split; reflexivity.
Qed.

(** * Further properties of the code *)

(** ** The diff parser *)

Lemma not_plus_not_header (line : str) :
  startswith line (py "+") = false -> is_header line = false.
Proof.
  intros Hplus; unfold is_header.
  destruct (startswith line (py "+++ b/")) eqn:Hhdr; [|reflexivity].
  rewrite <- Hplus; symmetry.
  apply startswith_trans with (p := py "+++ b/"); [exact Hhdr|reflexivity].
Qed.

Lemma parse_step_other (st : parse_state) (line : str) :
  startswith line (py "+") = false -> parse_step st line = st.
Proof.
  intros Hplus; unfold parse_step.
  pose proof (not_plus_not_header _ Hplus) as Hhdr.
  unfold is_header in Hhdr; rewrite Hhdr, Hplus.
  destruct (current_file st) as [file|]; [|reflexivity].
  now rewrite andb_false_r.
Qed.

Lemma parse_from_no_header (lines : list str) :
  Forall (fun l => is_header l = false) lines ->
  parse_from parse_init lines = parse_init.
Proof. intros H; now apply parse_from_idle. Qed.

(** X1: a diff without any [+++ b/] header line yields no AddedLine entry,
    whatever else it holds, and so the banned-pattern detector answers with
    nothing without compiling a pattern. *)
Theorem no_header_no_added_lines :
  forall (engine : RegexEngine) (diff : str) (patterns : list BannedPattern),
    Forall (fun l => is_header l = false) (splitlines diff) ->
    _parse_added_lines diff = [] /\
    _check_banned_patterns diff patterns = Return [].
Proof.
  intros engine diff patterns Hno.
  assert (Hparse : _parse_added_lines diff = []).
  { unfold _parse_added_lines, parse_lines.
    now rewrite parse_from_no_header. }
  split; [exact Hparse|].
  now apply check_banned_patterns_empty.
Qed.

Lemma no_header_no_added_lines_witness :
  _check_banned_patterns
    (py "@@ -1,2 +1,3 @@" ++ NL ++ py "+eval(userInput)" ++ NL ++
     py "--- a/app.js" ++ NL ++ py "+more")
    [ {| regex := Some (py "eval("); label := None; severity := None |} ]
  = Return [].
Proof.
  apply (@no_header_no_added_lines python_re).
  repeat constructor.
Defined.

(** X2: lines that do not start with a plus sign (context lines, removed
    lines, hunk headers, old-file headers) are ignored: the parser answers the
    same on the lines without them. *)
Theorem non_plus_lines_are_ignored :
  forall (lines : list str),
    parse_lines (filter (fun l => startswith l (py "+")) lines)
    = parse_lines lines.
Proof.
  intros lines; unfold parse_lines; f_equal.
  generalize parse_init as st.
  induction lines as [|l ls IH]; intros st; [reflexivity|].
  cbn [filter]; destruct (startswith l (py "+")) eqn:Hplus.
  - rewrite !parse_from_cons; apply IH.
  - rewrite parse_from_cons, (parse_step_other _ _ Hplus); apply IH.
Qed.

Lemma attributed_snoc (lines : list str) (line : str) (e : str * str) :
  attributed lines e -> attributed (lines ++ [line]) e.
Proof.
  intros [pre [mid [post [Hlines Hmid]]]].
  exists pre, mid, (post ++ [line]); split; [|assumption].
  rewrite Hlines, <- !app_assoc; cbn [app].
  now rewrite <- app_assoc.
Qed.

Lemma parse_step_attributed (lines : list str) (st : parse_state)
  (line : str) :
  cursor_attributed lines st ->
  Forall (attributed lines) (results st) ->
  cursor_attributed (lines ++ [line]) (parse_step st line) /\
  Forall (attributed (lines ++ [line])) (results (parse_step st line)).
Proof.
  intros Hcur Hres.
  assert (Hold : Forall (attributed (lines ++ [line])) (results st)).
  { eapply Forall_impl; [|exact Hres].
    intros e; apply attributed_snoc. }
  unfold parse_step; fold (is_header line).
  destruct (is_header line) eqn:Hhdr.
  - assert (Hline : line = header_of (skipn 6 line))
      by (apply (startswith_split line (py "+++ b/")); exact Hhdr).
    destruct (is_excluded (skipn 6 line)); split; try exact Hold.
    + exact I.
    + exists lines, []; split; [now rewrite <- Hline | constructor].
  - unfold cursor_attributed in Hcur.
    destruct (current_file st) as [file|] eqn:Hfile;
      [|split; [unfold cursor_attributed; now rewrite Hfile | exact Hold]].
    destruct Hcur as [pre [mid [Hlines Hmid]]].
    assert (Hcur' : exists pre' mid',
               lines ++ [line] = pre' ++ header_of file :: mid' /\
               Forall (fun l => is_header l = false) mid').
    { exists pre, (mid ++ [line]); split.
      - rewrite Hlines, <- app_assoc; reflexivity.
      - apply Forall_app; split; [assumption|now constructor]. }
    destruct (truthy file && startswith line (py "+")
              && negb (startswith line (py "+++"))) eqn:Hcond.
    + split; [exact Hcur'|].
      apply Forall_app; split; [exact Hold|].
      constructor; [|constructor].
      apply andb_true_iff in Hcond as [Hcond _].
      apply andb_true_iff in Hcond as [_ Hplus].
      apply startswith_plus in Hplus.
      exists pre, mid, []; cbn [fst snd]; split; [|assumption].
      rewrite <- Hplus, Hlines, <- app_assoc; reflexivity.
    + split; [|exact Hold].
      unfold cursor_attributed; rewrite Hfile; exact Hcur'.
Qed.

Lemma parse_from_attributed (lines done : list str) (st : parse_state) :
  cursor_attributed done st ->
  Forall (attributed done) (results st) ->
  Forall (attributed (done ++ lines)) (results (parse_from st lines)).
Proof.
  revert done st; induction lines as [|l ls IH]; intros done st Hcur Hres.
  - now rewrite app_nil_r.
  - rewrite parse_from_cons.
    destruct (@parse_step_attributed done st l Hcur Hres) as [Hcur' Hres'].
    replace (done ++ l :: ls) with ((done ++ [l]) ++ ls)
      by (rewrite <- app_assoc; reflexivity).
    now apply IH.
Qed.

Lemma parse_added_lines_attributed (diff : str) :
  Forall (attributed (splitlines diff)) (_parse_added_lines diff).
Proof.
  apply (@parse_from_attributed (splitlines diff) [] parse_init);
    [exact I | constructor].
Qed.

(** X3: every AddedLine entry is attributed to the file that was opened last:
    the diff holds the header of the entry's path, later the line with a plus
    sign before the entry's text, and no header between the two; the path is
    neither empty nor excluded. *)
Theorem added_line_attribution :
  forall (diff path text : str),
    In (path, text) (_parse_added_lines diff) ->
    (exists pre mid post,
        splitlines diff
        = pre ++ header_of path :: mid ++ (py "+" ++ text) :: post /\
        Forall (fun l => is_header l = false) mid) /\
    truthy path = true /\ is_excluded path = false.
Proof.
  intros diff path text Hin.
  pose proof (parse_added_lines_attributed diff) as Hattr.
  pose proof (parse_added_lines_emitted diff) as Hemit.
  rewrite Forall_forall in Hattr, Hemit.
  split; [exact (Hattr _ Hin)|].
  destruct (Hemit _ Hin) as [_ [_ H]]; exact H.
Qed.

Lemma added_line_attribution_witness :
  exists pre mid post,
    splitlines (py "+++ b/a.py" ++ NL ++ py " ctx" ++ NL ++ py "+x = 1")
    = pre ++ header_of (py "a.py") :: mid ++ (py "+" ++ py "x = 1") :: post.
Proof.
  destruct (@added_line_attribution
              (py "+++ b/a.py" ++ NL ++ py " ctx" ++ NL ++ py "+x = 1")
              (py "a.py") (py "x = 1"))
    as [[pre [mid [post [H _]]]] _].
  - now left.
  - exists pre, mid, post; exact H.
Defined.

(** The results are an accumulator: a step, and a run of steps, add to
    what was found before and do not look at it. *)
Lemma parse_step_shift (cursor : option str) (found : list (str * str))
  (line : str) :
  parse_step {| current_file := cursor; results := found |} line =
  {| current_file :=
       current_file
         (parse_step {| current_file := cursor; results := [] |} line);
     results :=
       found ++ results
                  (parse_step {| current_file := cursor; results := [] |}
                              line) |}.
Proof.
  unfold parse_step; cbn [current_file results].
  destruct (startswith line (py "+++ b/")).
  - destruct (is_excluded (skipn 6 line)); cbn; now rewrite app_nil_r.
  - destruct cursor as [file|]; [|cbn; now rewrite app_nil_r].
    destruct (truthy file && startswith line (py "+")
              && negb (startswith line (py "+++")));
      cbn; [reflexivity | now rewrite app_nil_r].
Qed.

Lemma parse_from_shift (lines : list str) (cursor : option str)
  (found : list (str * str)) :
  parse_from {| current_file := cursor; results := found |} lines =
  {| current_file :=
       current_file
         (parse_from {| current_file := cursor; results := [] |} lines);
     results :=
       found ++ results
                  (parse_from {| current_file := cursor; results := [] |}
                              lines) |}.
Proof.
  revert cursor found; induction lines as [|l ls IH]; intros cursor found.
  - cbn; now rewrite app_nil_r.
  - rewrite !parse_from_cons.
    rewrite (parse_step_shift cursor found l), IH.
    destruct (parse_step {| current_file := cursor; results := [] |} l)
      as [cursor' delta] eqn:Hstep.
    cbn [current_file results].
    rewrite (IH cursor' delta); cbn [current_file results].
    now rewrite app_assoc.
Qed.

(** X4: the parser composes over the concatenation of line lists: the entries
    of the first part come first, unchanged, and the second part is read with
    the cursor that the first part leaves. *)
Theorem parse_lines_app :
  forall (l1 l2 : list str),
    parse_lines (l1 ++ l2)
    = parse_lines l1
      ++ results (parse_from
                    {| current_file := current_file (parse_from parse_init l1);
                       results := [] |} l2).
Proof.
  intros l1 l2; unfold parse_lines at 1.
  rewrite results_parse_app, parse_from_shift; reflexivity.
Qed.

Lemma parse_from_section (path : str) (body : list str)
  (found : list (str * str)) :
  truthy path = true ->
  Forall (fun l => is_header l = false) body ->
  parse_from {| current_file := Some path; results := found |} body =
  {| current_file := Some path;
     results := found ++ List.map (fun l => (path, skipn 1 l))
                                  (filter is_added_line body) |}.
Proof.
  intros Hpath Hbody; revert found.
  induction Hbody as [|l ls Hl _ IH]; intros found.
  - cbn; now rewrite app_nil_r.
  - rewrite parse_from_cons; unfold parse_step at 1.
    unfold is_header in Hl; rewrite Hl; cbn [current_file results].
    rewrite Hpath; cbn [andb filter]; fold (is_added_line l).
    destruct (is_added_line l); rewrite IH; [|reflexivity].
    cbn [List.map]; now rewrite <- app_assoc.
Qed.

(** X5: the section of a file: after a header with a usable path (not empty,
    not excluded) the lines up to the next header yield exactly their added
    lines (one plus sign, not three, at the start), in order, under that path
    and without the plus sign. *)
Theorem file_section_added_lines :
  forall (diff : str) (pre : list str) (path : str) (body post : list str),
    splitlines diff = pre ++ header_of path :: body ++ post ->
    truthy path = true ->
    is_excluded path = false ->
    Forall (fun l => is_header l = false) body ->
    _parse_added_lines diff
    = parse_lines pre
      ++ List.map (fun l => (path, skipn 1 l)) (filter is_added_line body)
      ++ results (parse_from {| current_file := Some path; results := [] |}
                             post).
Proof.
  intros diff pre path body post Hlines Hpath Hex Hbody.
  unfold _parse_added_lines, parse_lines at 1.
  rewrite Hlines, results_parse_app, parse_from_cons.
  unfold header_of; rewrite parse_step_header, Hex, parse_from_app.
  rewrite (@parse_from_section path body _ Hpath Hbody); cbn [results].
  rewrite parse_from_shift; cbn [results].
  now rewrite <- app_assoc.
Qed.

Lemma file_section_added_lines_witness :
  _parse_added_lines
    (py "+++ b/src/a.py" ++ NL ++ py "@@ -1 +1,2 @@" ++ NL ++ py "+x = 1"
     ++ NL ++ py "-y = 2" ++ NL ++ py "+++z" ++ NL ++ py "+" ++ NL ++
     py "+++ b/robodev/b.py" ++ NL ++ py "+w")
  = [(py "src/a.py", py "x = 1"); (py "src/a.py", [])].
Proof.
  rewrite (@file_section_added_lines _ [] (py "src/a.py")
             [py "@@ -1 +1,2 @@"; py "+x = 1"; py "-y = 2"; py "+++z"; py "+"]
             [py "+++ b/robodev/b.py"; py "+w"]).
  - reflexivity.
  - reflexivity.
  - reflexivity.
  - reflexivity.
  - repeat constructor.
Defined.

(** ** [str.splitlines] and the parser *)

Lemma splitlines_from_no_linebreak (n : nat) :
  forall (s : str),
    length s <= n ->
    forall cur : str,
      no_linebreak cur ->
      Forall no_linebreak (splitlines_from cur s).
Proof.
  induction n as [|n IH]; intros s Hlen cur Hcur.
  - destruct s as [|c s]; [|cbn in Hlen; lia].
    cbn; destruct cur; repeat constructor.
    apply Forall_rev in Hcur; exact Hcur.
  - destruct s as [|c s].
    + cbn; destruct cur; repeat constructor.
      apply Forall_rev in Hcur; exact Hcur.
    + cbn [splitlines_from]; destruct (is_linebreak c) eqn:Hc.
      * constructor; [apply Forall_rev; exact Hcur|].
        repeat match goal with
               | |- context [match ?x with _ => _ end] => destruct x
               end;
          apply IH; cbn in *; solve [lia | constructor].
      * apply IH; [cbn in Hlen; lia|].
        constructor; assumption.
Qed.

Lemma splitlines_no_linebreak (s : str) :
  Forall no_linebreak (splitlines s).
Proof.
  apply (@splitlines_from_no_linebreak (length s)); [lia | constructor].
Qed.

(** X6: no path and no text of an AddedLine entry holds a line boundary of
    [str.splitlines] (line feed, carriage return, form feed and the others);
    in a diff with CR LF line ends the texts carry no trailing carriage
    return. *)
Theorem added_lines_hold_no_linebreak :
  forall diff : str,
    Forall (fun e => no_linebreak (fst e) /\ no_linebreak (snd e))
           (_parse_added_lines diff).
Proof.
  intros diff.
  pose proof (parse_added_lines_attributed diff) as Hattr.
  pose proof (splitlines_no_linebreak diff) as Hlines.
  rewrite Forall_forall in Hattr, Hlines |- *.
  intros e He.
  destruct (Hattr e He) as [pre [mid [post [Heq _]]]].
  split.
  - assert (Hin : In (header_of (fst e)) (splitlines diff))
      by (rewrite Heq; apply in_or_app; right; now left).
    apply Hlines in Hin; unfold header_of in Hin.
    apply Forall_app in Hin; tauto.
  - assert (Hin : In (py "+" ++ snd e) (splitlines diff)).
    { rewrite Heq; apply in_or_app; right; right.
      apply in_or_app; right; now left. }
    apply Hlines in Hin.
    apply Forall_app in Hin; tauto.
Qed.

(** ** The size detector *)

(** X7: the size detector flags exactly the files with more changed lines than
    the threshold, once each: a message is among its findings if and only if
    it is the warning of such a file, and there are as many findings as such
    files. A file at the threshold is not flagged, and neither is a file
    without a "changes" key when the threshold is not negative. *)
Theorem size_detector_flags_exactly_oversized :
  forall (files : list ChangedFile) (max_changed : Z),
    (forall msg : str,
        In msg (_check_file_size files max_changed) <->
        exists f, In f files
                  /\ (dict_get (changes f) 0 > max_changed)%Z
                  /\ msg = size_message (filename f) (dict_get (changes f) 0%Z)
                                        max_changed) /\
    length (_check_file_size files max_changed)
    = length (filter (fun f => (dict_get (changes f) 0 >? max_changed)%Z)
                     files) /\
    ((0 <= max_changed)%Z ->
     Forall (fun f => changes f = None \/ changes f = Some max_changed) files ->
     _check_file_size files max_changed = []).
Proof.
  intros files max_changed; split; [|split].
  - intros msg; unfold _check_file_size; rewrite in_flat_map.
    split; intros [f [Hin H]]; exists f; split; try assumption.
    + destruct (dict_get (changes f) 0 >? max_changed)%Z eqn:Hgt;
        [|contradiction].
      destruct H as [<- | []]; split; [now apply Z.gtb_gt | reflexivity].
    + destruct H as [Hgt ->].
      apply Z.gtb_gt in Hgt; rewrite Hgt; now left.
  - unfold _check_file_size.
    induction files as [|f fs IH]; [reflexivity|].
    cbn [flat_map filter]; rewrite length_app, IH.
    now destruct (dict_get (changes f) 0 >? max_changed)%Z.
  - intros Hmax Hall; unfold _check_file_size.
    induction Hall as [|f fs Hf _ IH]; [reflexivity|].
    cbn [flat_map]; rewrite IH.
    replace (dict_get (changes f) 0 >? max_changed)%Z with false;
      [reflexivity|].
    symmetry; rewrite Z.gtb_ltb; apply Z.ltb_ge.
    destruct Hf as [-> | ->]; cbn [dict_get]; lia.
Qed.

Lemma size_detector_flags_exactly_oversized_witness :
  _check_file_size
    [ {| filename := py "a.py"; status := py "added"; changes := None |};
      {| filename := py "b.py"; status := py "added";
         changes := Some 500%Z |} ] 500
  = [].
Proof.
  apply (@size_detector_flags_exactly_oversized _ 500%Z).
  - lia.
  - constructor; [now left|].
    constructor; [now right | constructor].
Defined.

(** ** The test-coverage detector *)

Lemma existsb_permutation {A : Type} (f : A -> bool) (l l' : list A) :
  Permutation l l' -> existsb f l = existsb f l'.
Proof.
  induction 1 as [|x l l' _ IH|x y l|l l' l'' _ IH1 _ IH2]; cbn [existsb].
  - reflexivity.
  - now rewrite IH.
  - now rewrite !orb_assoc, (orb_comm (f y)).
  - now rewrite IH1.
Qed.

(** X8: the answer of the test-coverage detector does not depend on the order
    of the file list. *)
Theorem test_coverage_order_independent :
  forall (files files' : list ChangedFile) (require_tests : bool),
    Permutation files files' ->
    _check_test_coverage files require_tests
    = _check_test_coverage files' require_tests.
Proof.
  intros files files' require_tests Hperm.
  unfold _check_test_coverage; rewrite !coverage_scan_flags.
  rewrite (existsb_permutation _ Hperm).
  now rewrite (existsb_permutation counts_as_test Hperm).
Qed.

Lemma test_coverage_order_independent_witness :
  _check_test_coverage
    [ {| filename := py "src/app.py"; status := py "modified";
         changes := None |};
      {| filename := py "tests/test_app.py"; status := py "added";
         changes := None |} ] true
  = _check_test_coverage
      [ {| filename := py "tests/test_app.py"; status := py "added";
           changes := None |};
        {| filename := py "src/app.py"; status := py "modified";
           changes := None |} ] true.
Proof.
  apply test_coverage_order_independent, perm_swap.
Defined.

(** X9: a file that the detector does not consider (excluded, or neither added
    nor modified) changes nothing, and one considered file with a test name
    silences the detector, whatever else the pull request touches. *)
Theorem test_file_silences_coverage_warning :
  forall (files : list ChangedFile) (f : ChangedFile) (require_tests : bool),
    (considered f = false ->
     _check_test_coverage (f :: files) require_tests
     = _check_test_coverage files require_tests) /\
    (In f files -> considered f = true ->
     is_test_name (filename f) = true ->
     _check_test_coverage files require_tests = []).
Proof.
  intros files f require_tests; split.
  - intros Hf; unfold _check_test_coverage; rewrite !coverage_scan_flags.
    cbn [existsb]; unfold counts_as_source, counts_as_test.
    now rewrite Hf.
  - intros Hin Hcons Hname; unfold _check_test_coverage.
    destruct (negb require_tests); [reflexivity|].
    rewrite coverage_scan_flags.
    replace (existsb counts_as_test files) with true;
      [now rewrite andb_false_r|].
    symmetry; apply existsb_exists; exists f; split; [assumption|].
    unfold counts_as_test; now rewrite Hcons, Hname.
Qed.

Lemma test_file_silences_coverage_warning_witness :
  _check_test_coverage
    [ {| filename := py "docs/old.py"; status := py "removed";
         changes := None |};
      {| filename := py "src/app.py"; status := py "modified";
         changes := None |} ] true
  = _check_test_coverage
      [ {| filename := py "src/app.py"; status := py "modified";
           changes := None |} ] true
  /\ _check_test_coverage
       [ {| filename := py "src/app.py"; status := py "modified";
            changes := None |};
         {| filename := py "src/AppSpec.ts"; status := py "added";
            changes := None |} ] true
     = [].
Proof.
  split.
  - apply test_file_silences_coverage_warning; reflexivity.
  - apply (@test_file_silences_coverage_warning _
             {| filename := py "src/AppSpec.ts"; status := py "added";
                changes := None |}).
    + right; now left.
    + reflexivity.
    + reflexivity.
Defined.

(** ** The banned-pattern detector, continued *)

Section BannedComposition.

Context {engine : RegexEngine}.

Lemma scan_patterns_acc (text : str) (patterns : list BannedPattern)
  (issues : list str) :
  scan_patterns text patterns issues =
  (found <- scan_patterns text patterns [] ;; Return (issues ++ found)).
Proof.
  revert issues; induction patterns as [|entry rest IH]; intros issues.
  - cbn; now rewrite app_nil_r.
  - cbn [scan_patterns].
    destruct (scan_entry text entry) as [found|e]; cbn [bind];
      [|reflexivity].
    rewrite IH, (IH ([] ++ found)).
    destruct (scan_patterns text rest []) as [more|e]; cbn [bind app];
      [|reflexivity].
    now rewrite app_assoc.
Qed.

Lemma scan_patterns_app (text : str) (ps1 ps2 : list BannedPattern)
  (issues : list str) :
  scan_patterns text (ps1 ++ ps2) issues =
  (found <- scan_patterns text ps1 issues ;; scan_patterns text ps2 found).
Proof.
  revert issues; induction ps1 as [|entry rest IH]; intros issues.
  - reflexivity.
  - cbn [app scan_patterns].
    destruct (scan_entry text entry) as [found|e]; cbn [bind];
      [apply IH | reflexivity].
Qed.

Lemma scan_patterns_inv (text : str) (patterns : list BannedPattern) :
  forall issues out,
    scan_patterns text patterns issues = Return out ->
    exists matches,
      Forall2 (matches_in text) patterns matches /\
      out = issues ++ findings_for patterns matches.
Proof.
  induction patterns as [|entry rest IH]; intros issues out Hscan.
  - exists []; split; [constructor|].
    cbn in Hscan; injection Hscan as <-; now rewrite app_nil_r.
  - cbn [scan_patterns] in Hscan; unfold scan_entry in Hscan.
    destruct (finditer (dict_get (regex entry) []) text) as [ms|e] eqn:Hms;
      cbn [bind] in Hscan; [|discriminate].
    destruct (IH _ _ Hscan) as [matches [Hall ->]].
    exists (ms :: matches); split; [now constructor|].
    unfold findings_for; cbn [combine flat_map fst snd].
    now rewrite <- app_assoc.
Qed.

Lemma findings_for_origin (text : str) (patterns : list BannedPattern)
  (matches : list (list str)) :
  Forall2 (matches_in text) patterns matches ->
  Forall (finding_origin text patterns) (findings_for patterns matches).
Proof.
  induction 1 as [|entry ms patterns matches Hentry _ IH].
  - constructor.
  - unfold findings_for; cbn [combine flat_map fst snd].
    apply Forall_app; split.
    + apply Forall_forall; intros issue Hin.
      apply in_map_iff in Hin as [matched [<- Hin]].
      exists entry, ms, matched; repeat split; auto; now left.
    + eapply Forall_impl; [|exact IH].
      intros issue [entry' [ms' [matched [Hin H]]]].
      exists entry', ms', matched; split; [now right | exact H].
Qed.

Lemma check_banned_patterns_origin (diff : str)
  (patterns : list BannedPattern) (found : list str) :
  _check_banned_patterns diff patterns = Return found ->
  Forall (finding_origin (scan_buffer diff) patterns) found.
Proof.
  intros Hcheck.
  destruct (_parse_added_lines diff) as [|e es] eqn:Hlines.
  - rewrite check_banned_patterns_empty in Hcheck by assumption.
    injection Hcheck as <-; constructor.
  - rewrite check_banned_patterns_nonempty in Hcheck
      by (rewrite Hlines; discriminate).
    apply scan_patterns_inv in Hcheck as [matches [Hall ->]].
    now apply findings_for_origin.
Qed.

(** X10: the patterns are checked one after the other and independently: the
    detector on two pattern lists in a row answers with the findings of the
    first list followed by those of the second, and raises where the first or
    else the second raises. *)
Theorem banned_patterns_compose :
  forall (diff : str) (ps1 ps2 : list BannedPattern),
    _check_banned_patterns diff (ps1 ++ ps2) =
    (found1 <- _check_banned_patterns diff ps1 ;;
     found2 <- _check_banned_patterns diff ps2 ;;
     Return (found1 ++ found2)).
Proof.
  intros diff ps1 ps2; unfold _check_banned_patterns.
  destruct (_parse_added_lines diff) as [|e es]; [reflexivity|].
  rewrite scan_patterns_app.
  destruct (scan_patterns _ ps1 []) as [found1|err]; cbn [bind];
    [|reflexivity].
  apply scan_patterns_acc.
Qed.

End BannedComposition.

(** ** Findings and verdict of a run *)

Lemma in_firstn {A : Type} (n : nat) (l : list A) (x : A) :
  In x (firstn n l) -> In x l.
Proof.
  intros H; rewrite <- (firstn_skipn n l); apply in_or_app; now left.
Qed.

Lemma contains_single (c : char) (s : str) :
  contains [c] s = existsb (N.eqb c) s.
Proof.
  induction s as [|d s IH]; [reflexivity|].
  cbn [contains startswith existsb].
  now rewrite startswith_nil, andb_true_r, IH.
Qed.

Lemma contains_cross (s : str) :
  contains CROSS s = true <-> In 10060%N s.
Proof.
  unfold CROSS; rewrite contains_single, existsb_exists; split.
  - intros [c [Hin Hc]]; apply N.eqb_eq in Hc; now subst.
  - intros Hin; exists 10060%N; split; [assumption|apply N.eqb_refl].
Qed.

Lemma cross_free_by_test (s : str) :
  contains CROSS s = false -> cross_free s.
Proof.
  intros Htest Hin; apply contains_cross in Hin; congruence.
Qed.

Lemma py_cross_free (s : string) : cross_free (py s).
Proof.
  unfold cross_free, py; intros Hin.
  apply in_map_iff in Hin as [a [Ha _]].
  pose proof (N_ascii_bounded a) as Hbound; lia.
Qed.

Lemma warn_cross_free : cross_free WARN.
Proof. unfold cross_free, WARN; cbn [In]; intros [H|[H|[]]]; discriminate. Qed.

(** Strips the literal parts off a message that holds the cross mark. *)
Ltac cross_parts H :=
  repeat match type of H with
         | In _ (_ ++ _) => apply in_app_or in H; destruct H as [H|H]
         | In _ (py _) => exfalso; exact (py_cross_free _ H)
         | In _ (str_of_Z _) => exfalso; exact (py_cross_free _ H)
         | In _ WARN => exfalso; exact (warn_cross_free H)
         end.

Lemma size_message_cross (name : str) (n max_changed : Z) :
  In 10060%N (size_message name n max_changed) -> In 10060%N name.
Proof. unfold size_message; intros H; cross_parts H; exact H. Qed.

Lemma large_pr_message_cross_free (n : nat) (max_files : Z) :
  cross_free (large_pr_message n max_files).
Proof. unfold cross_free, large_pr_message; intros H; cross_parts H. Qed.

Lemma coverage_message_cross_free : cross_free coverage_message.
Proof. unfold cross_free, coverage_message; intros H; cross_parts H. Qed.

Lemma warning_finding_cross (entry : BannedPattern) (matched : str) :
  configured_severity entry = warning ->
  In 10060%N (finding_of entry matched) ->
  In 10060%N (dict_get (label entry) (dict_get (regex entry) []))
  \/ In 10060%N matched.
Proof.
  unfold configured_severity, finding_of, banned_message, icon_of.
  destruct (str_eqb (dict_get (severity entry) (py "warning")) (py "error"));
    [discriminate|].
  intros _ H; cross_parts H.
  - now left.
  - right; now apply in_firstn in H.
Qed.

Lemma check_file_size_findings (files : list ChangedFile) (max_changed : Z)
  (issue : str) :
  In issue (_check_file_size files max_changed) ->
  exists f, In f files /\
            issue = size_message (filename f) (dict_get (changes f) 0%Z)
                                 max_changed.
Proof.
  unfold _check_file_size; rewrite in_flat_map.
  intros [f [Hin H]]; exists f; split; [assumption|].
  destruct (dict_get (changes f) 0 >? max_changed)%Z; [|contradiction].
  destruct H as [<- | []]; reflexivity.
Qed.

Section RunProperties.

Context {engine : RegexEngine}.

(** The findings of a run, by detector. *)
Lemma collect_issues_inv (review_cfg : ReviewConfig)
  (files : list ChangedFile) (diff : str) (issues : list str) :
  collect_issues review_cfg files diff = Return issues ->
  exists found,
    _check_banned_patterns diff (dict_get (banned_patterns review_cfg) [])
    = Return found /\
    forall issue,
      In issue issues <->
      In issue (_check_file_size files
                  (dict_get (max_changed_lines_per_file review_cfg) 500%Z))
      \/ In issue (_check_large_pr files
                     (dict_get (max_files_per_pr review_cfg) 20%Z))
      \/ In issue found
      \/ In issue (_check_test_coverage files
                     (dict_get (require_tests review_cfg) true)).
Proof.
  unfold collect_issues; intros H.
  destruct (_check_banned_patterns diff _) as [found|e]; cbn [bind] in H;
    [|discriminate].
  injection H as <-; exists found; split; [reflexivity|].
  intros issue; rewrite !in_app_iff; tauto.
Qed.

Lemma large_pr_findings (files : list ChangedFile) (max_files : Z)
  (issue : str) :
  In issue (_check_large_pr files max_files) ->
  issue = large_pr_message (length files) max_files.
Proof.
  unfold _check_large_pr.
  destruct (Z.of_nat (length files) >? max_files)%Z; [|contradiction].
  intros [<- | []]; reflexivity.
Qed.

Lemma test_coverage_findings (files : list ChangedFile) (require : bool)
  (issue : str) :
  In issue (_check_test_coverage files require) -> issue = coverage_message.
Proof.
  unfold _check_test_coverage.
  destruct (negb require); [contradiction|].
  destruct (coverage_scan files) as [src test].
  destruct (src && negb test); [|contradiction].
  intros [<- | []]; reflexivity.
Qed.

(** X11: every finding of a run has a severity, and a finding of severity
    error is the finding of a match of a configured pattern whose severity is
    "error": the size, file-count and test-coverage detectors only warn. *)
Theorem error_findings_come_from_error_patterns :
  forall (review_cfg : ReviewConfig) (files : list ChangedFile) (diff : str)
         (issues : list str),
    collect_issues review_cfg files diff = Return issues ->
    Forall
      (fun issue =>
         finding_severity issue = Some warning \/
         (finding_severity issue = Some error /\
          exists entry,
            In entry (dict_get (banned_patterns review_cfg) []) /\
            configured_severity entry = error /\
            finding_origin (scan_buffer diff) [entry] issue))
      issues.
Proof.
  intros review_cfg files diff issues Hrun.
  apply collect_issues_inv in Hrun as [found [Hfound Hissues]].
  apply check_banned_patterns_origin in Hfound.
  rewrite Forall_forall in Hfound |- *.
  intros issue Hin; apply Hissues in Hin.
  destruct Hin as [Hin | [Hin | [Hin | Hin]]].
  - apply check_file_size_findings in Hin as [f [_ ->]]; now left.
  - apply large_pr_findings in Hin as ->; now left.
  - destruct (Hfound _ Hin) as [entry [ms [matched [He [Hms [Hm ->]]]]]].
    rewrite finding_of_severity.
    destruct (configured_severity entry) eqn:Hsev; [now left|right].
    split; [reflexivity|].
    exists entry; repeat split; try assumption.
    exists entry, ms, matched; repeat split; auto; now left.
  - apply test_coverage_findings in Hin as ->; now left.
Qed.

End RunProperties.

Lemma error_findings_come_from_error_patterns_witness :
  Forall
    (fun issue =>
       finding_severity issue = Some warning \/
       (finding_severity issue = Some error /\
        exists entry,
          In entry [ {| regex := Some (py "eval\(");
                        label := Some (py "eval-usage");
                        severity := Some (py "error") |} ] /\
          configured_severity entry = error /\
          finding_origin
            (scan_buffer (py "+++ b/app.js" ++ NL ++ py "+eval(userInput)"))
            [entry] issue))
    [ large_pr_message 1 0;
      finding_of {| regex := Some (py "eval\(");
                    label := Some (py "eval-usage");
                    severity := Some (py "error") |} (py "eval(");
      coverage_message ].
Proof.
  apply (@error_findings_come_from_error_patterns python_re
           {| max_changed_lines_per_file := None;
              max_files_per_pr := Some 0%Z;
              banned_patterns :=
                Some [ {| regex := Some (py "eval\(");
                          label := Some (py "eval-usage");
                          severity := Some (py "error") |} ];
              require_tests := None |}
           [ {| filename := py "app.js"; status := py "modified";
                changes := Some 1%Z |} ]
           (py "+++ b/app.js" ++ NL ++ py "+eval(userInput)")).
  reflexivity.
Defined.

(** X12: the verdict is exact as long as no text that the findings quote holds
    the cross mark: when no file name, no label and no matched text holds it,
    the review asks for changes if and only if some finding has severity
    error. *)
Theorem verdict_exact_without_quoted_cross_mark :
  forall (engine : RegexEngine) (review_cfg : ReviewConfig)
         (files : list ChangedFile) (diff : str) (issues : list str)
         (ai_summary : option str),
    collect_issues review_cfg files diff = Return issues ->
    Forall (fun f => cross_free (filename f)) files ->
    Forall (fun entry =>
              cross_free (dict_get (label entry) (dict_get (regex entry) []))
              /\ forall ms, matches_in (scan_buffer diff) entry ms ->
                            Forall cross_free ms)
           (dict_get (banned_patterns review_cfg) []) ->
    (event (build_review issues ai_summary) = REQUEST_CHANGES <->
     Exists (fun issue => finding_severity issue = Some error) issues).
Proof.
  intros engine review_cfg files diff issues ai_summary Hrun Hfiles Hbanned.
  destruct (build_review_event issues ai_summary) as [-> _].
  split.
  - intros Hevent.
    destruct (has_errors issues) eqn:Herr; [clear Hevent|discriminate].
    apply existsb_exists in Herr as [issue [Hin Hcross]].
    apply contains_cross in Hcross.
    apply Exists_exists; exists issue; split; [assumption|].
    apply collect_issues_inv in Hrun as [found [Hfound Hissues]].
    apply check_banned_patterns_origin in Hfound.
    rewrite Forall_forall in Hfound, Hfiles, Hbanned.
    apply Hissues in Hin; destruct Hin as [Hin | [Hin | [Hin | Hin]]].
    + apply check_file_size_findings in Hin as [f [Hf ->]].
      apply size_message_cross in Hcross.
      now apply Hfiles in Hcross.
    + apply large_pr_findings in Hin as ->.
      now apply large_pr_message_cross_free in Hcross.
    + destruct (Hfound _ Hin) as [entry [ms [matched [He [Hms [Hm ->]]]]]].
      rewrite finding_of_severity.
      destruct (configured_severity entry) eqn:Hsev; [|reflexivity].
      destruct (Hbanned _ He) as [Hlabel Hmatches].
      apply (warning_finding_cross Hsev) in Hcross as [Hcross|Hcross].
      * now apply Hlabel in Hcross.
      * specialize (Hmatches _ Hms); rewrite Forall_forall in Hmatches.
        now apply (Hmatches _ Hm) in Hcross.
    + apply test_coverage_findings in Hin as ->.
      now apply coverage_message_cross_free in Hcross.
  - intros Herr; apply has_errors_of_error_finding in Herr.
    now rewrite Herr.
Qed.

Lemma verdict_exact_without_quoted_cross_mark_witness :
  let entry := {| regex := Some (py "TODO.*"); label := Some (py "todo");
                  severity := Some (py "warning") |} in
  let issues := [ finding_of entry (py "TODO write the docs") ] in
  event (build_review issues None) = REQUEST_CHANGES <->
  Exists (fun issue => finding_severity issue = Some error) issues.
Proof.
  intros entry issues.
  apply (@verdict_exact_without_quoted_cross_mark python_re
           {| max_changed_lines_per_file := None;
              max_files_per_pr := None;
              banned_patterns := Some [entry];
              require_tests := Some false |}
           [ {| filename := py "README.md"; status := py "modified";
                changes := Some 1%Z |} ]
           (py "+++ b/README.md" ++ NL ++ py "+- TODO write the docs")).
  - reflexivity.
  - constructor; [apply py_cross_free | constructor].
  - constructor; [|constructor]; split; [apply py_cross_free|].
    intros ms Hms; vm_compute in Hms; injection Hms as <-.
    constructor; [apply cross_free_by_test; reflexivity | constructor].
Defined.



(** ** The review body *)

Lemma startswith_refl (s : str) : startswith s s = true.
Proof.
  induction s as [|c s IH]; [reflexivity|].
  cbn [startswith]; now rewrite N.eqb_refl, IH.
Qed.

Lemma contains_nil (s : str) : contains [] s = true.
Proof. destruct s; reflexivity. Qed.

Lemma contains_join (sep : str) (parts : list str) (x : str) :
  In x parts -> contains x (join sep parts) = true.
Proof.
  induction parts as [|p rest IH]; [contradiction|].
  intros [-> | Hin].
  - destruct rest; cbn [join]; apply contains_prefix;
      [apply startswith_refl | apply startswith_app].
  - destruct rest as [|q rest]; [contradiction|].
    change (join sep (p :: q :: rest))
      with (p ++ sep ++ join sep (q :: rest)).
    do 2 apply contains_app_l; now apply IH.
Qed.

Lemma build_review_lines (issues : list str) (ai_summary : option str) :
  exists lines,
    body (build_review issues ai_summary) = join NL lines /\
    (forall issue, In issue issues -> In issue lines) /\
    (forall text, ai_summary = Some text -> truthy text = true ->
                  In text lines).
Proof.
  unfold build_review.
  destruct (has_errors issues), (truthy_opt ai_summary) eqn:Hai,
    issues as [|i0 rest];
    cbn [body nonempty negb andb];
    (eexists; split; [reflexivity|]); split.
  all: match goal with
       | |- forall issue, In issue _ -> _ =>
           intros issue Hin; rewrite !in_app_iff; cbn [In] in *; tauto
       | |- forall text, _ = Some text -> _ =>
           intros text -> Htext; cbn [truthy_opt] in Hai;
           try congruence;
           cbn [dict_get]; rewrite !in_app_iff; cbn [In]; tauto
       end.
Qed.

(** X14: nothing is left out of the review body: every finding of the run, and
    the AI summary when there is one, stands in the body word for word. *)
Theorem review_body_quotes_findings :
  forall (issues : list str) (ai_summary : option str),
    Forall (fun issue =>
              contains issue (body (build_review issues ai_summary)) = true)
           issues /\
    (forall text,
        ai_summary = Some text ->
        contains text (body (build_review issues ai_summary)) = true).
Proof.
  intros issues ai_summary.
  destruct (build_review_lines issues ai_summary)
    as [lines [-> [Hissues Hai]]].
  split.
  - apply Forall_forall; intros issue Hin.
    apply contains_join; auto.
  - intros text Hsome.
    destruct (truthy text) eqn:Htext.
    + apply contains_join; auto.
    + destruct text; [apply contains_nil | discriminate].
Qed.

Lemma review_body_quotes_findings_witness :
  contains (py "Looks fine.")
           (body (build_review [coverage_message] (Some (py "Looks fine."))))
  = true.
Proof.
  apply (proj2 (review_body_quotes_findings
                  [coverage_message] (Some (py "Looks fine.")))).
  reflexivity.
Defined.

(** ** The AI review *)

Lemma truncated_marker_length : length DIFF_TRUNCATED = 37.
Proof. reflexivity. Qed.

Lemma truncate_diff_short (diff : str) (max_chars : Z) :
  (Z.of_nat (length diff) <= max_chars)%Z ->
  truncate_diff diff max_chars = diff.
Proof.
  intros Hle; unfold truncate_diff, slice_to.
  replace (Z.of_nat (length diff) >? max_chars)%Z with false
    by (symmetry; rewrite Z.gtb_ltb; apply Z.ltb_ge; lia).
  replace (max_chars <? 0)%Z with false
    by (symmetry; apply Z.ltb_ge; lia).
  apply firstn_all2; lia.
Qed.

Lemma truncate_diff_long (diff : str) (max_chars : Z) :
  (0 <= max_chars < Z.of_nat (length diff))%Z ->
  truncate_diff diff max_chars
  = firstn (Z.to_nat max_chars) diff ++ DIFF_TRUNCATED.
Proof.
  intros [Hpos Hlt]; unfold truncate_diff, slice_to.
  replace (Z.of_nat (length diff) >? max_chars)%Z with true
    by (symmetry; apply Z.gtb_gt; lia).
  replace (max_chars <? 0)%Z with false
    by (symmetry; apply Z.ltb_ge; lia).
  now rewrite Z.min_l by lia.
Qed.

Lemma truncate_diff_negative (diff : str) (max_chars : Z) :
  (max_chars < 0)%Z ->
  truncate_diff diff max_chars
  = firstn (length diff - Z.to_nat (- max_chars)) diff ++ DIFF_TRUNCATED.
Proof.
  intros Hneg; unfold truncate_diff, slice_to.
  replace (Z.of_nat (length diff) >? max_chars)%Z with true
    by (symmetry; apply Z.gtb_gt; lia).
  replace (max_chars <? 0)%Z with true
    by (symmetry; apply Z.ltb_lt; lia).
  do 2 f_equal; lia.
Qed.

(** X15: [_ai_review] degrades without a request when the API key is missing
    or empty or the package is not installed. Otherwise it makes one request,
    whose user message carries the diff whole when it has at most
    [max_diff_chars] characters, and else its first [max_diff_chars]
    characters followed by the truncation notice; with a limit that is not
    negative at most [max_diff_chars + 37] characters of diff text are sent. A
    negative limit cuts that many characters off the end and always adds the
    notice. *)
Theorem ai_review_sends_bounded_diff :
  forall (env : ReviewEnv) (openai : option (ChatRequest -> api (option str)))
         (diff : str) (ai_cfg : AiConfig),
    let key := dict_get (OPENAI_API_KEY env) [] in
    let max_chars := dict_get (max_diff_chars ai_cfg) 60000%Z in
    (key = [] \/ openai = None ->
     _ai_review env openai diff ai_cfg = Returns None) /\
    (forall create,
        key <> [] -> openai = Some create ->
        exists request,
          _ai_review env openai diff ai_cfg = create request /\
          req_api_key request = key /\
          req_user request = user_content env (truncate_diff diff max_chars))
    /\
    ((Z.of_nat (length diff) <= max_chars)%Z ->
     truncate_diff diff max_chars = diff) /\
    ((0 <= max_chars < Z.of_nat (length diff))%Z ->
     truncate_diff diff max_chars
     = firstn (Z.to_nat max_chars) diff ++ DIFF_TRUNCATED) /\
    ((0 <= max_chars)%Z ->
     (Z.of_nat (length (truncate_diff diff max_chars)) <= max_chars + 37)%Z)
    /\
    ((max_chars < 0)%Z ->
     truncate_diff diff max_chars
     = firstn (length diff - Z.to_nat (- max_chars)) diff ++ DIFF_TRUNCATED).
Proof.
  intros env openai diff ai_cfg key max_chars.
  split; [|split; [|split; [|split; [|split]]]].
  - intros [Hkey | Hnone]; unfold _ai_review; fold key.
    + now rewrite Hkey.
    + rewrite Hnone; now destruct (negb (truthy key)).
  - intros create Hkey ->; unfold _ai_review; fold key.
    destruct key as [|c key'] eqn:Hk; [contradiction|].
    cbn [truthy negb]; eexists; split; [reflexivity|].
    split; reflexivity.
  - apply truncate_diff_short.
  - apply truncate_diff_long.
  - intros Hpos.
    destruct (Z_le_gt_dec (Z.of_nat (length diff)) max_chars) as [Hle|Hgt].
    + rewrite truncate_diff_short by assumption; lia.
    + rewrite truncate_diff_long by lia.
      rewrite length_app, length_firstn, truncated_marker_length; lia.
  - apply truncate_diff_negative.
Qed.

Lemma ai_review_sends_bounded_diff_witness :
  _ai_review
    {| OPENAI_API_KEY := Some []; PR_TITLE := None; PR_BODY := None |}
    (Some (fun _ => Fails)) (py "+++ b/a.py") 
    {| model := None; max_diff_chars := Some 4%Z; system_prompt := None |}
  = Returns None
  /\ truncate_diff (py "+++ b/a.py") 4 = py "+++ " ++ DIFF_TRUNCATED
  /\ truncate_diff (py "+++ b/a.py") (-4) = py "+++ b/" ++ DIFF_TRUNCATED
  /\ truncate_diff (py "+++ b/a.py") 10 = py "+++ b/a.py"
  /\ exists request,
       _ai_review
         {| OPENAI_API_KEY := Some (py "sk-1"); PR_TITLE := None;
            PR_BODY := None |}
         (Some (fun r => Returns (Some (req_model r)))) (py "+++ b/a.py")
         {| model := None; max_diff_chars := None; system_prompt := None |}
       = Returns (Some (req_model request))
       /\ req_api_key request = py "sk-1".
Proof.
  split; [|split; [|split; [|split]]].
  5: { destruct (@ai_review_sends_bounded_diff
                   {| OPENAI_API_KEY := Some (py "sk-1"); PR_TITLE := None;
                      PR_BODY := None |}
                   (Some (fun r => Returns (Some (req_model r))))
                   (py "+++ b/a.py")
                   {| model := None; max_diff_chars := None;
                      system_prompt := None |})
         as [_ [Hreq _]].
       destruct (Hreq (fun r => Returns (Some (req_model r))))
         as [request [Hcall [Hkey _]]];
         [discriminate | reflexivity |].
       exists request; split; [exact Hcall | exact Hkey]. }
  - apply (@ai_review_sends_bounded_diff
             {| OPENAI_API_KEY := Some []; PR_TITLE := None;
                PR_BODY := None |}).
    left; reflexivity.
  - apply (@ai_review_sends_bounded_diff
             {| OPENAI_API_KEY := None; PR_TITLE := None; PR_BODY := None |}
             None (py "+++ b/a.py")
             {| model := None; max_diff_chars := Some 4%Z;
                system_prompt := None |}).
    cbn; lia.
  - apply (@ai_review_sends_bounded_diff
             {| OPENAI_API_KEY := None; PR_TITLE := None; PR_BODY := None |}
             None (py "+++ b/a.py")
             {| model := None; max_diff_chars := Some (-4)%Z;
                system_prompt := None |}).
    cbn; lia.
  - apply (@ai_review_sends_bounded_diff
             {| OPENAI_API_KEY := None; PR_TITLE := None; PR_BODY := None |}
             None (py "+++ b/a.py")
             {| model := None; max_diff_chars := Some 10%Z;
                system_prompt := None |}).
    cbn; lia.
Defined.

(** ** The summary comment *)

Lemma str_eqb_eq (a b : str) : str_eqb a b = true <-> a = b.
Proof.
  revert b; induction a as [|x a IH]; intros [|y b]; cbn [str_eqb];
    try (split; [discriminate | discriminate]); [tauto|].
  rewrite andb_true_iff, N.eqb_eq, IH.
  split; [intros [-> ->]; reflexivity | intros H; injection H; auto].
Qed.

Lemma contains_marker_body (text : str) :
  contains GithubClient.marker (GithubClient.body_with_marker text) = true.
Proof. apply contains_prefix, startswith_app. Qed.

(** X16: [post_pr_comment] keeps one summary comment: it makes a new comment
    only when no listed comment holds the marker; otherwise it updates the
    first comment that holds it. The text that it writes holds the marker
    itself, so once a summary comment is listed every later call updates and
    never adds. *)
Theorem post_pr_comment_updates_in_place :
  forall (comments : list GithubClient.Comment) (text : str),
    let holds c :=
      contains GithubClient.marker (dict_get (GithubClient.body c) []) in
    (Forall (fun c => holds c = false) comments ->
     GithubClient.post_pr_comment comments text
     = GithubClient.Post (GithubClient.body_with_marker text)) /\
    (forall before c after,
        comments = before ++ c :: after ->
        Forall (fun c' => holds c' = false) before ->
        holds c = true ->
        GithubClient.post_pr_comment comments text
        = GithubClient.Patch (GithubClient.id c)
                             (GithubClient.body_with_marker text)) /\
    (forall before c after earlier,
        comments = before ++ c :: after ->
        GithubClient.body c
        = Some (GithubClient.body_with_marker earlier) ->
        exists cid,
          GithubClient.post_pr_comment comments text
          = GithubClient.Patch cid (GithubClient.body_with_marker text)).
Proof.
  intros comments text holds.
  assert (Hfirst : forall before c after new_body,
             Forall (fun c' => holds c' = false) before ->
             holds c = true ->
             GithubClient.upsert (before ++ c :: after) new_body
             = GithubClient.Patch (GithubClient.id c) new_body).
  { intros before c after new_body Hbefore Hc.
    induction Hbefore as [|b bs Hb _ IH]; cbn [app GithubClient.upsert].
    - unfold holds in Hc; now rewrite Hc.
    - unfold holds in Hb; now rewrite Hb. }
  assert (Hany : forall cs new_body,
             Exists (fun c => holds c = true) cs ->
             exists cid,
               GithubClient.upsert cs new_body
               = GithubClient.Patch cid new_body).
  { intros cs new_body Hex.
    induction cs as [|c cs IH]; [inversion Hex|].
    cbn [GithubClient.upsert]; fold (holds c).
    destruct (holds c) eqn:Hc; [eexists; reflexivity|].
    apply IH; inversion Hex; [congruence | assumption]. }
  split; [|split].
  - intros Hnone; unfold GithubClient.post_pr_comment.
    induction Hnone as [|c cs Hc _ IH]; [reflexivity|].
    cbn [GithubClient.upsert]; unfold holds in Hc; now rewrite Hc.
  - intros before c after -> Hbefore Hc.
    now apply Hfirst.
  - intros before c after earlier -> Hbody.
    apply Hany, Exists_app; right; left.
    unfold holds; rewrite Hbody; apply contains_marker_body.
Qed.

Lemma post_pr_comment_updates_in_place_witness :
  GithubClient.post_pr_comment
    [ {| GithubClient.id := 7; GithubClient.body := None |} ] (py "report")
  = GithubClient.Post (GithubClient.body_with_marker (py "report"))
  /\ GithubClient.post_pr_comment
       [ {| GithubClient.id := 7; GithubClient.body := None |};
         {| GithubClient.id := 9;
            GithubClient.body :=
              Some (GithubClient.body_with_marker (py "report")) |} ]
       (py "new report")
     = GithubClient.Patch 9 (GithubClient.body_with_marker (py "new report")).
Proof.
  split.
  - apply post_pr_comment_updates_in_place.
    repeat constructor.
  - apply (proj1 (proj2 (post_pr_comment_updates_in_place
                           [ {| GithubClient.id := 7;
                                GithubClient.body := None |};
                             {| GithubClient.id := 9;
                                GithubClient.body :=
                                  Some (GithubClient.body_with_marker
                                          (py "report")) |} ]
                           (py "new report")))
             [ {| GithubClient.id := 7; GithubClient.body := None |} ]
             {| GithubClient.id := 9;
                GithubClient.body :=
                  Some (GithubClient.body_with_marker (py "report")) |}
             []).
    + reflexivity.
    + repeat constructor.
    + reflexivity.
Defined.

Lemma icon_check_mark (result : str) :
  Summary._icon result = CHECK_MARK <-> result = py "success".
Proof.
  unfold Summary._icon, Summary._STATUS_ICONS; cbn [Summary.lookup].
  destruct (str_eqb result (py "success")) eqn:Hs.
  - apply str_eqb_eq in Hs; subst; split; reflexivity.
  - assert (Hne : result <> py "success").
    { intros H; apply str_eqb_eq in H; congruence. }
    destruct (str_eqb result (py "failure"));
      [split; [discriminate | contradiction]|].
    destruct (str_eqb result (py "cancelled"));
      [split; [discriminate | contradiction]|].
    destruct (str_eqb result (py "skipped"));
      split; solve [discriminate | contradiction].
Qed.

(** X17: the summary passes exactly when every gate shows the check mark: the
    exit code is 0 if and only if the three results are all "success", which
    is when the three icons are check marks; a result that is missing from the
    environment, skipped or cancelled makes the exit code 1. *)
Theorem summary_passes_iff_all_success :
  forall env : Summary.Env,
    let hygiene := dict_get (Summary.HYGIENE_RESULT env) (py "unknown") in
    let jira := dict_get (Summary.JIRA_RESULT env) (py "unknown") in
    let review := dict_get (Summary.REVIEW_RESULT env) (py "unknown") in
    (snd (Summary.run env) = 0%Z \/ snd (Summary.run env) = 1%Z) /\
    (snd (Summary.run env) = 0%Z <->
     Summary.HYGIENE_RESULT env = Some (py "success") /\
     Summary.JIRA_RESULT env = Some (py "success") /\
     Summary.REVIEW_RESULT env = Some (py "success")) /\
    (snd (Summary.run env) = 0%Z <->
     Summary._icon hygiene = CHECK_MARK /\
     Summary._icon jira = CHECK_MARK /\
     Summary._icon review = CHECK_MARK).
Proof.
  intros env hygiene jira review.
  assert (Hcode : snd (Summary.run env) = 0%Z <->
                  hygiene = py "success" /\ jira = py "success"
                  /\ review = py "success").
  { unfold Summary.run; fold hygiene jira review; cbn [forallb snd].
    rewrite <- !str_eqb_eq.
    destruct (str_eqb hygiene (py "success")),
             (str_eqb jira (py "success")),
             (str_eqb review (py "success")); cbn [andb];
      split; intros H; try discriminate H; try tauto;
      repeat split; destruct H as [H1 [H2 H3]]; discriminate. }
  assert (Hget : forall o : option str,
             dict_get o (py "unknown") = py "success" <->
             o = Some (py "success")).
  { intros [v|]; cbn [dict_get]; split; intros H;
      solve [now subst | injection H; auto | discriminate H]. }
  split; [|split].
  - unfold Summary.run; cbn [snd].
    destruct (forallb _ _); auto.
  - rewrite Hcode; subst hygiene jira review; now rewrite !Hget.
  - rewrite Hcode, !icon_check_mark; tauto.
Qed.

(** ** The verdict, continued *)

(** X18: the verdict depends on the findings alone, and only on which findings
    there are: the AI summary never changes it (also when its text asks for
    changes), the order of the findings does not matter, and more findings
    never turn a request for changes into a comment. *)
Theorem verdict_depends_on_findings_only :
  forall (issues issues' more : list str) (ai_summary ai_summary' : option str),
    event (build_review issues ai_summary)
    = event (build_review issues ai_summary') /\
    exit_code (build_review issues ai_summary)
    = exit_code (build_review issues ai_summary') /\
    (Permutation issues issues' ->
     event (build_review issues ai_summary)
     = event (build_review issues' ai_summary)) /\
    (event (build_review issues ai_summary) = REQUEST_CHANGES ->
     event (build_review (issues ++ more) ai_summary) = REQUEST_CHANGES /\
     event (build_review (more ++ issues) ai_summary) = REQUEST_CHANGES).
Proof.
  intros issues issues' more ai ai'.
  destruct (build_review_event issues ai) as [He Hc].
  destruct (build_review_event issues ai') as [He' Hc'].
  split; [congruence|]; split; [congruence|]; split.
  - intros Hperm.
    destruct (build_review_event issues' ai) as [Hp _].
    rewrite He, Hp; unfold has_errors.
    now rewrite (existsb_permutation _ Hperm).
  - intros Hreq; rewrite He in Hreq.
    destruct (has_errors issues) eqn:Herr; [|discriminate].
    destruct (build_review_event (issues ++ more) ai) as [-> _].
    destruct (build_review_event (more ++ issues) ai) as [-> _].
    unfold has_errors in *; rewrite !existsb_app, Herr.
    now rewrite orb_true_r.
Qed.

Lemma verdict_depends_on_findings_only_witness :
  event (build_review
           [coverage_message;
            finding_of {| regex := None; label := None;
                          severity := Some (py "error") |} (py "x")]
           None)
  = event (build_review
             [finding_of {| regex := None; label := None;
                            severity := Some (py "error") |} (py "x");
              coverage_message]
             None).
Proof.
  apply (proj1 (proj2 (proj2
           (verdict_depends_on_findings_only
              [coverage_message;
               finding_of {| regex := None; label := None;
                             severity := Some (py "error") |} (py "x")]
              [finding_of {| regex := None; label := None;
                             severity := Some (py "error") |} (py "x");
               coverage_message]
              [] None None)))).
  apply perm_swap.
Defined.

(** ** The Jira base address *)

Lemma lstrip_spec (chars s : str) :
  exists taken,
    s = taken ++ lstrip chars s /\
    Forall (fun c => existsb (N.eqb c) chars = true) taken /\
    match lstrip chars s with
    | [] => True
    | c :: _ => existsb (N.eqb c) chars = false
    end.
Proof.
  induction s as [|c s [taken [Heq [Htaken Hhead]]]].
  - exists []; repeat split; constructor.
  - cbn [lstrip]; destruct (existsb (N.eqb c) chars) eqn:Hc.
    + exists (c :: taken); repeat split.
      * cbn [app]; now rewrite <- Heq.
      * now constructor.
      * exact Hhead.
    + exists []; repeat split; [constructor | exact Hc].
Qed.

(** X19: the base address of Jira never ends with a slash: it is the value of
    the environment variable without its trailing slashes (the empty string
    when the variable is missing), so that the paths appended to it start with
    the only slash; normalising twice changes nothing. *)
Theorem jira_base_url_has_no_trailing_slash :
  forall value : option str,
    (exists slashes,
        dict_get value [] = jira_base_url value ++ slashes /\
        Forall (fun c => c = 47%N) slashes) /\
    (forall start, jira_base_url value <> start ++ py "/") /\
    jira_base_url (Some (jira_base_url value)) = jira_base_url value.
Proof.
  intros value; unfold jira_base_url; cbn [dict_get].
  set (s := dict_get value []).
  destruct (lstrip_spec (py "/") (rev s)) as [taken [Heq [Htaken Hhead]]].
  assert (Hslash : forall c, existsb (N.eqb c) (py "/") = true -> c = 47%N).
  { intros c Hc; change (py "/") with [47%N] in Hc; cbn [existsb] in Hc.
    rewrite orb_false_r in Hc; now apply N.eqb_eq in Hc. }
  assert (Hend : forall start, rstrip (py "/") s <> start ++ py "/").
  { intros start Hrs; unfold rstrip in Hrs.
    apply (f_equal (@rev char)) in Hrs.
    rewrite rev_involutive, rev_app_distr in Hrs.
    change (rev (py "/")) with [47%N] in Hrs; cbn [app] in Hrs.
    rewrite Hrs in Hhead.
    change (py "/") with [47%N] in Hhead; cbn [existsb] in Hhead.
    rewrite N.eqb_refl in Hhead; discriminate. }
  split; [|split].
  - exists (rev taken); split.
    + unfold rstrip; rewrite <- rev_app_distr, <- Heq.
      symmetry; apply rev_involutive.
    + apply Forall_rev; eapply Forall_impl; [|exact Htaken].
      intros c Hc; now apply Hslash.
  - exact Hend.
  - unfold rstrip at 1.
    destruct (rev (rstrip (py "/") s)) as [|c rest] eqn:Hrev.
    + apply (f_equal (@rev char)) in Hrev.
      rewrite rev_involutive in Hrev; now rewrite Hrev.
    + cbn [lstrip].
      destruct (existsb (N.eqb c) (py "/")) eqn:Hc.
      * exfalso; apply Hslash in Hc; subst c.
        apply (Hend (rev rest)).
        apply (f_equal (@rev char)) in Hrev.
        rewrite rev_involutive in Hrev; rewrite Hrev; reflexivity.
      * rewrite <- Hrev; apply rev_involutive.
Qed.
